(** * AllergyGuard frontend: dish analysis service and result page

    A shallow embedding of the TypeScript frontend of AllergyGuard:
    - [types.ts]: [Allergen], [DishReport];
    - [services/geminiservices.ts]: [analyzeDish] (the simulated analysis over
      a table of mock reports) and [analyzeDishFromBackend] (the transform of
      the backend's scan response into a [DishReport]);
    - [components/allergen-badge.tsx]: [getSeverityColor], [getSizeClasses],
      [getIcon] and the badge element;
    - [pages/resultpage]: the [ResultPage] component.

    Strings are ASCII strings ([Stdlib.Strings.String]); the JavaScript string
    methods used by the code are modelled on that range.  Asynchronous
    functions are modelled by their settled outcome ([Resolved] / [Rejected]);
    the two-second delay of [analyzeDish] has no observable effect on the
    value and is not modelled.  [new Date().toISOString()] reads the wall
    clock: the successive readings of one call are an explicit argument. *)

From Stdlib Require Import String Ascii List Bool Arith Lia DecimalString.
Import ListNotations.
Open Scope string_scope.

(* ===================================================================== *)
(** ** JavaScript primitives used by the code *)
(* ===================================================================== *)

Module JS.

(** *** String methods

    The methods are those of JavaScript on strings of ASCII characters.
    A character outside that range is left unchanged by [toLowerCase] and
    [toUpperCase] and is never white space for [trim]; JavaScript also maps
    the letters outside the range (sometimes to several characters) and
    trims the Unicode spaces.  What is proved of an arbitrary string below
    either does not depend on the mapping of those characters or assumes a
    string of ASCII characters. *)

Definition is_upper (c : ascii) : bool :=
  let n := nat_of_ascii c in ((65 <=? n) && (n <=? 90))%nat.

Definition is_lower (c : ascii) : bool :=
  let n := nat_of_ascii c in ((97 <=? n) && (n <=? 122))%nat.

Definition lower_char (c : ascii) : ascii :=
  if is_upper c then ascii_of_nat (nat_of_ascii c + 32) else c.

Definition upper_char (c : ascii) : ascii :=
  if is_lower c then ascii_of_nat (nat_of_ascii c - 32) else c.

(** [s.toLowerCase()] *)
Fixpoint toLowerCase (s : string) : string :=
  match s with
  | EmptyString => EmptyString
  | String c s' => String (lower_char c) (toLowerCase s')
  end.

(** [s.toUpperCase()] *)
Fixpoint toUpperCase (s : string) : string :=
  match s with
  | EmptyString => EmptyString
  | String c s' => String (upper_char c) (toUpperCase s')
  end.

(** White space of the ASCII range: TAB, LF, VT, FF, CR and SPACE. *)
Definition is_space (c : ascii) : bool :=
  let n := nat_of_ascii c in ((n =? 32) || ((9 <=? n) && (n <=? 13)))%nat.

Fixpoint trimStart (s : string) : string :=
  match s with
  | EmptyString => EmptyString
  | String c s' => if is_space c then trimStart s' else s
  end.

Fixpoint trimEnd (s : string) : string :=
  match s with
  | EmptyString => EmptyString
  | String c s' =>
      match trimEnd s' with
      | EmptyString => if is_space c then EmptyString else String c EmptyString
      | t => String c t
      end
  end.

(** [s.trim()] *)
Definition trim (s : string) : string := trimEnd (trimStart s).

(** [s.includes(sub)]: [sub] occurs in [s] at some position. *)
Fixpoint includes (s sub : string) : bool :=
  prefix sub s ||
  match s with
  | EmptyString => false
  | String _ s' => includes s' sub
  end.

(** [s.charAt(0)]: the first character as a string, or the empty string. *)
Definition charAt0 (s : string) : string :=
  match s with
  | EmptyString => EmptyString
  | String c _ => String c EmptyString
  end.

(** [s.slice(1)] *)
Definition slice1 (s : string) : string :=
  match s with
  | EmptyString => EmptyString
  | String _ s' => s'
  end.

(** *** Settled promises *)

Inductive Promise (A : Type) : Type :=
| Resolved (a : A)
| Rejected (err : string).
Arguments Resolved {A} a.
Arguments Rejected {A} err.

(** *** The wall clock

    [now i] is the ISO string returned by the [i]-th evaluation of
    [new Date().toISOString()] during one call. *)
Definition Clock : Type := nat -> string.

(** *** Property lookup on an object literal

    An object literal is the ordered list of its own properties.  Its
    prototype is [Object.prototype], so [o[k]] finds an own property first
    and an inherited one otherwise. *)

Definition Object_prototype_keys : list string :=
  [ "constructor"; "__defineGetter__"; "__defineSetter__"; "hasOwnProperty";
    "__lookupGetter__"; "__lookupSetter__"; "isPrototypeOf";
    "propertyIsEnumerable"; "toString"; "valueOf"; "__proto__";
    "toLocaleString" ].

Inductive Property (A : Type) : Type :=
| Own (a : A)
| Inherited (key : string).
Arguments Own {A} a.
Arguments Inherited {A} key.

Fixpoint own {A} (o : list (string * A)) (k : string) : option A :=
  match o with
  | [] => None
  | (k', a) :: o' => if String.eqb k k' then Some a else own o' k
  end.

(** [o[k]]; [None] is [undefined]. *)
Definition get {A} (o : list (string * A)) (k : string) : option (Property A) :=
  match own o k with
  | Some a => Some (Own a)
  | None =>
      if existsb (String.eqb k) Object_prototype_keys
      then Some (Inherited k) else None
  end.

(** [a || b]: objects and functions are truthy, [undefined] is falsy. *)
Definition or_else {A} (a : option A) (b : A) : A :=
  match a with
  | Some v => v
  | None => b
  end.

End JS.

(* ===================================================================== *)
(** ** types.ts *)
(* ===================================================================== *)

Inductive AllergenSeverity : Type := high | medium | low.

Record Allergen : Type := mkAllergen {
  name : string;
  severity : AllergenSeverity;
  description : option string
}.

Inductive RiskLevel : Type := LOW | MEDIUM | HIGH.

Record DishReport : Type := mkDishReport {
  dishName : string;
  restaurant : option string;
  allergens : list Allergen;
  safeAllergens : list string;
  ingredients : list string;
  riskLevel : RiskLevel;
  isDairyFree : bool;
  isGlutenFree : bool;
  isNutFree : bool;
  isVegan : bool;
  isVegetarian : bool;
  recommendations : option (list string);
  scanTime : option string
}.

(* ===================================================================== *)
(** ** services/geminiservices.ts *)
(* ===================================================================== *)

Module GeminiService.
Import JS.

(** The entries of the table of mock reports.  The table is rebuilt on
    every call: the entry for 'pad thai' takes the first clock reading and
    the entry for 'burger' the second. *)
Definition padThai (now : Clock) : DishReport :=
     {| dishName := "Pad Thai";
        restaurant := Some "Thai Street Kitchen";
        allergens :=
          [ mkAllergen "Peanuts" high (Some "Contains crushed peanuts as topping");
            mkAllergen "Shellfish" medium (Some "Shrimp in sauce");
            mkAllergen "Eggs" low (Some "Used in noodle preparation") ];
        safeAllergens := ["Dairy"; "Gluten"; "Soy"; "Tree Nuts"];
        ingredients :=
          [ "Rice noodles"; "Shrimp"; "Eggs"; "Peanuts"; "Tamarind sauce";
            "Fish sauce"; "Bean sprouts"; "Green onions"; "Lime" ];
        riskLevel := HIGH;
        isDairyFree := true;
        isGlutenFree := false;
        isNutFree := false;
        isVegan := false;
        isVegetarian := false;
        recommendations :=
          Some [ "Request no peanuts if allergic";
                 "Ask for vegetarian version without shrimp";
                 "Check if sauce contains gluten" ];
        scanTime := Some (now 0) |}.

Definition burger (now : Clock) : DishReport :=
     {| dishName := "Classic Burger";
        restaurant := Some "Burger House";
        allergens :=
          [ mkAllergen "Gluten" high (Some "Wheat bun");
            mkAllergen "Dairy" medium (Some "Cheese and mayo");
            mkAllergen "Eggs" low (Some "In bun and sauce") ];
        safeAllergens := ["Nuts"; "Shellfish"; "Soy"];
        ingredients :=
          [ "Beef patty"; "Wheat bun"; "Cheddar cheese"; "Lettuce"; "Tomato";
            "Onion"; "Pickles"; "Mayo"; "Ketchup" ];
        riskLevel := MEDIUM;
        isDairyFree := false;
        isGlutenFree := false;
        isNutFree := true;
        isVegan := false;
        isVegetarian := false;
        recommendations :=
          Some [ "Request lettuce wrap instead of bun for gluten-free";
                 "Ask for no cheese if dairy-free";
                 "Plant-based patty available" ];
        scanTime := Some (now 1) |}.

Definition mockData (now : Clock) : list (string * DishReport) :=
  [ ("pad thai", padThai now); ("burger", burger now) ].

(** The report returned when the lookup finds nothing; it is built after
    the table and takes the third clock reading. *)
Definition defaultReport (now : Clock) (dishName : string) : DishReport :=
  {| dishName := dishName;
     restaurant := Some "Unknown Restaurant";
     allergens := [ mkAllergen "Gluten" medium (Some "May contain wheat") ];
     safeAllergens := ["Nuts"; "Dairy"; "Shellfish"];
     ingredients := ["Unknown ingredients - please verify with staff"];
     riskLevel := MEDIUM;
     isDairyFree := false;
     isGlutenFree := false;
     isNutFree := true;
     isVegan := false;
     isVegetarian := false;
     recommendations := Some ["Please verify ingredients with restaurant staff"];
     scanTime := Some (now 2) |}.

Definition normalizedName (dishName : string) : string :=
  trim (toLowerCase dishName).

(** [analyzeDish]: [mockData[normalizedName] || { ...default... }]. *)
Definition analyzeDish (now : Clock) (dishName : string)
  : Promise (Property DishReport) :=
  Resolved
    (or_else (get (mockData now) (normalizedName dishName))
             (Own (defaultReport now dishName))).

End GeminiService.

(** *** The backend's scan response

    [analyzeDishFromBackend] reads these fields of the JSON body of
    [GET /scan/<token>]; the record is a body of the expected shape
    ([data.dish.name], [data.restaurant.name],
    [data.safety_report.allergens.allergens_detected], [data.ingredients],
    [data.safety_report.risk_level], [data.dietary_flags.*],
    [data.safety_report.recommendations]). *)
Module Scan.

Record data : Type := mkData {
  dish_name : string;
  restaurant_name : string;
  allergens_detected : list string;
  ingredients : list string;
  risk_level : RiskLevel;
  dairy_free : bool;
  gluten_free : bool;
  vegan : bool;
  vegetarian : bool;
  recommendations : list string
}.

(** What [fetch] settles to: a rejection (no connection); a response with
    its [ok] flag and its body, [None] when the body is not JSON and
    [Some d] when it is JSON of the expected shape; or a response whose
    body is JSON on which a read of the transform throws, with the
    [TypeError] thrown (a missing [safety_report], [allergens], [dish],
    [restaurant] or [dietary_flags] object, an [allergens_detected] that is
    no array, a detected name that is no string).  A body that lacks only a
    value the transform copies ([dish.name], [ingredients], [risk_level],
    a flag, [recommendations]) is not among these: the code copies
    [undefined] into the report; such bodies are outside the model. *)
Inductive response : Type :=
| NetworkError (err : string)
| Response (ok : bool) (body : option data)
| Malformed (ok : bool) (typeError : string).

(** The value [res.json()] resolves to: a body of the expected shape, or
    one on which the transform throws the given [TypeError]. *)
Inductive json : Type :=
| Shaped (d : data)
| Unshaped (typeError : string).

End Scan.

Module BackendService.
Import JS.

Definition scanUrl (token : string) : string :=
  "http://localhost:8000/scan/" ++ token.

(** [name.charAt(0).toUpperCase() + name.slice(1)]; as [toUpperCase], it
    is the JavaScript expression on names of ASCII characters. *)
Definition capitalize (nm : string) : string :=
  toUpperCase (charAt0 nm) ++ slice1 nm.

(** The callback of [allergens_detected.map(...)]. *)
Definition toAllergen (nm : string) : Allergen :=
  {| name := capitalize nm;
     severity := high;
     description := Some ("Contains " ++ nm) |}.

(** [allergens.every(a => !a.name.toLowerCase().includes('nut'))] *)
Definition nutFree (al : list Allergen) : bool :=
  forallb (fun a => negb (includes (toLowerCase (name a)) "nut")) al.

(** The transform of a response body into a [DishReport]. *)
Definition toDishReport (now : Clock) (d : Scan.data) : DishReport :=
  let allergens := map toAllergen (Scan.allergens_detected d) in
  {| dishName := Scan.dish_name d;
     restaurant := Some (Scan.restaurant_name d);
     allergens := allergens;
     safeAllergens := [];
     ingredients := Scan.ingredients d;
     riskLevel := Scan.risk_level d;
     isDairyFree := Scan.dairy_free d;
     isGlutenFree := Scan.gluten_free d;
     isNutFree := nutFree allergens;
     isVegan := Scan.vegan d;
     isVegetarian := Scan.vegetarian d;
     recommendations := Some (Scan.recommendations d);
     scanTime := Some (now 0) |}.

(** [analyzeDishFromBackend]; [fetch] is the network's answer to a URL. *)
Definition analyzeDishFromBackend
    (now : Clock) (fetch : string -> Scan.response) (token : string)
  : Promise DishReport :=
  match fetch (scanUrl token) with
  | Scan.NetworkError err => Rejected err
  | Scan.Response ok body =>
      if negb ok then Rejected "Failed to fetch dish information"
      else match body with
           | None => Rejected "SyntaxError"
           | Some d => Resolved (toDishReport now d)
           end
  | Scan.Malformed ok typeError =>
      if negb ok then Rejected "Failed to fetch dish information"
      else Rejected typeError
  end.

End BackendService.

(* ===================================================================== *)
(** ** Rendered elements *)
(* ===================================================================== *)

Module View.

#[local] Set Warnings "-register-all".

(** A rendered React element: a text node, or a tag with its attributes and
    children.  Event handlers ([onClick]) and list keys are not part of the
    rendered tree. *)
Inductive Element : Type :=
| Text (s : string)
| Node (tag : string) (attrs : list (string * string)) (children : list Element).

Definition el (tag className : string) (children : list Element) : Element :=
  Node tag [("className", className)] children.

(** [<span className="material-icons ...">name</span>] *)
Definition icon (extra name : string) : Element :=
  el "span" ("material-icons" ++ extra) [Text name].

(** [{cond && <element/>}]: a falsy condition renders nothing. *)
Definition when (cond : bool) (e : Element) : list Element :=
  if cond then [e] else [].

(** All the text of an element, in document order. *)
Fixpoint texts (e : Element) : list string :=
  match e with
  | Text s => [s]
  | Node _ _ children => flat_map texts children
  end.

(** Exceptions of synchronous code. *)
Inductive Exc (A : Type) : Type :=
| Ok (a : A)
| Throw (err : string).
Arguments Ok {A} a.
Arguments Throw {A} err.

Definition bind {A B} (m : Exc A) (k : A -> Exc B) : Exc B :=
  match m with
  | Ok a => k a
  | Throw err => Throw err
  end.

Declare Scope exc_scope.
Delimit Scope exc_scope with exc.
Notation "x <- m ;; k" := (bind m (fun x => k))
  (at level 61, m at next level, right associativity) : exc_scope.

(** [report.f] on a value of type [DishReport | null]: reading a property
    of [null] throws a [TypeError]. *)
Definition field {R A} (report : option R) (f : R -> A) : Exc A :=
  match report with
  | Some r => Ok (f r)
  | None => Throw "TypeError: Cannot read properties of null"
  end.

(** Truthiness of [DishReport | null], of [string | undefined] and of
    [T[] | undefined] (an array is truthy even when empty). *)
Definition truthy {R} (v : option R) : bool :=
  match v with Some _ => true | None => false end.

Definition truthy_string (v : option string) : bool :=
  match v with
  | Some s => negb (String.eqb s "")
  | None => false
  end.

Definition string_or_empty (v : option string) : string :=
  match v with Some s => s | None => "" end.

Definition array_or_empty {A} (v : option (list A)) : list A :=
  match v with Some l => l | None => [] end.

End View.

(* ===================================================================== *)
(** ** components/allergen-badge.tsx *)
(* ===================================================================== *)

Module AllergenBadge.
Import JS View.

Inductive Size : Type := sm | md | lg.

(** The [default] branch of the [switch] is not reachable for a value of
    type [AllergenSeverity]. *)
Definition getSeverityColor (s : AllergenSeverity) : string :=
  match s with
  | high => "bg-danger/20 text-danger border-danger/30"
  | medium => "bg-warning/20 text-warning border-warning/30"
  | low => "bg-yellow-500/20 text-yellow-500 border-yellow-500/30"
  end.

Definition getSizeClasses (size : Size) : string :=
  match size with
  | sm => "px-2 py-0.5 text-[10px]"
  | lg => "px-4 py-2 text-sm"
  | md => "px-3 py-1 text-xs"
  end.

Definition getIcon (nm : string) : string :=
  let lower := toLowerCase nm in
  if includes lower "nut" || includes lower "peanut" then "eco"
  else if includes lower "dairy" || includes lower "milk" then "water_drop"
  else if includes lower "gluten" || includes lower "wheat" then "grain"
  else if includes lower "shellfish" || includes lower "fish" then "set_meal"
  else if includes lower "egg" then "egg"
  else if includes lower "soy" then "nature"
  else "warning".

Definition fontSize (size : Size) : string :=
  match size with sm => "12px" | lg => "18px" | md => "14px" end.

Definition render (allergen : Allergen) (size : Size) : Element :=
  el "div"
    ("inline-flex items-center gap-1.5 rounded-full border font-bold uppercase tracking-wide "
       ++ getSizeClasses size ++ " " ++ getSeverityColor (severity allergen))
    [ Node "span" [("className", "material-icons"); ("style.fontSize", fontSize size)]
        [Text (getIcon (name allergen))];
      Node "span" [] [Text (name allergen)] ].

End AllergenBadge.

(* ===================================================================== *)
(** ** pages/resultpage: the [ResultPage] component *)
(* ===================================================================== *)

Module ResultPage.
Import JS View.

Definition getRiskColor (risk : RiskLevel) : string :=
  match risk with
  | HIGH => "bg-danger/20 text-danger border-danger/30"
  | MEDIUM => "bg-warning/20 text-warning border-warning/30"
  | LOW => "bg-primary/20 text-primary border-primary/30"
  end.

Definition getRiskIcon (risk : RiskLevel) : string :=
  match risk with
  | HIGH => "error"
  | MEDIUM => "warning"
  | LOW => "check_circle"
  end.

(** The string a [riskLevel] is at run time. *)
Definition riskText (risk : RiskLevel) : string :=
  match risk with HIGH => "HIGH" | MEDIUM => "MEDIUM" | LOW => "LOW" end.

Definition natText (n : nat) : string :=
  DecimalString.NilZero.string_of_uint (Nat.to_uint n).

(** The view returned when [report] is falsy. *)
Definition noScanData : Element :=
  el "div" "min-h-screen flex items-center justify-center p-6"
    [ el "div" "text-center"
        [ icon " text-6xl text-slate-600 mb-4" "error_outline";
          el "p" "text-slate-400" [Text "No scan data available"];
          el "button" "mt-6 bg-primary text-background-dark px-6 py-3 rounded-xl font-bold"
            [Text "Go Back"] ] ].

Definition header : Element :=
  el "header" "sticky top-0 z-40 bg-background-dark/95 backdrop-blur-xl border-b border-slate-800 px-6 py-4"
    [ el "div" "flex items-center justify-between"
        [ el "button" "w-10 h-10 rounded-full bg-card-dark flex items-center justify-center text-slate-300 hover:text-white transition-colors"
            [icon "" "chevron_left"];
          el "div" "flex-1 text-center"
            [ el "h1" "font-bold text-white" [Text "Scan Results"];
              el "p" "text-[10px] text-slate-500 uppercase tracking-wider" [Text "Analysis Complete"] ];
          el "button" "w-10 h-10 rounded-full bg-card-dark flex items-center justify-center text-slate-300 hover:text-white transition-colors"
            [icon "" "qr_code_scanner"] ] ].

Definition flagChip (flag : string * bool * string) : Element :=
  let '(label, value, ic) := flag in
  el "div"
    ("flex items-center gap-1.5 px-3 py-1.5 rounded-lg text-xs font-semibold "
       ++ (if value then "bg-primary/10 text-primary" else "bg-slate-800 text-slate-500"))
    [icon " text-sm" ic; Text label].

Definition dishInfo (dishName_ : string) (restaurant_ : option string)
    (risk : RiskLevel) (veg vgn glu dai nut : bool) : Element :=
  el "div" "bg-card-dark rounded-3xl p-6 border border-slate-800"
    [ el "div" "flex items-start justify-between mb-4"
        [ Node "div" []
            (el "h2" "text-2xl font-bold text-white mb-1" [Text dishName_]
             :: when (truthy_string restaurant_)
                  (el "p" "text-sm text-slate-400"
                     [Text "📍 "; Text (string_or_empty restaurant_)]));
          el "div"
            ("px-4 py-2 rounded-full border font-bold text-sm uppercase tracking-wide "
               ++ getRiskColor risk)
            [ el "div" "flex items-center gap-2"
                [icon " text-base" (getRiskIcon risk); Text (riskText risk)] ] ];
      el "div" "flex flex-wrap gap-2 pt-4 border-t border-slate-800"
        (map flagChip
           [ ("Vegetarian", veg, "eco");
             ("Vegan", vgn, "spa");
             ("Gluten-Free", glu, "grain");
             ("Dairy-Free", dai, "water_drop");
             ("Nut-Free", nut, "nature") ]) ].

Definition allergenRow (allergen : Allergen) : Element :=
  el "div" "bg-background-dark/50 rounded-xl p-4"
    (el "div" "flex items-start justify-between mb-2"
       [AllergenBadge.render allergen AllergenBadge.md]
     :: when (truthy_string (description allergen))
          (el "p" "text-xs text-slate-400 mt-2"
             [Text (string_or_empty (description allergen))])).

Definition allergenAlerts (al : list Allergen) : Element :=
  if (0 <? List.length al)%nat then
    el "div" "bg-danger/5 border border-danger/20 rounded-3xl p-6"
      [ el "div" "flex items-center gap-3 mb-4"
          [ el "div" "w-10 h-10 bg-danger/20 rounded-full flex items-center justify-center"
              [icon " text-danger" "warning"];
            Node "div" []
              [ el "h3" "font-bold text-white text-lg" [Text "Allergen Warning"];
                el "p" "text-xs text-slate-400"
                  [Text "Contains "; Text (natText (List.length al)); Text " allergen(s)"] ] ];
        el "div" "space-y-3" (map allergenRow al) ]
  else
    el "div" "bg-primary/5 border border-primary/20 rounded-3xl p-6"
      [ el "div" "flex items-center gap-3 mb-2"
          [ el "div" "w-10 h-10 bg-primary/20 rounded-full flex items-center justify-center"
              [icon " text-primary" "check_circle"];
            Node "div" []
              [ el "h3" "font-bold text-white text-lg" [Text "All Clear!"];
                el "p" "text-xs text-slate-400" [Text "No major allergens detected"] ] ] ].

Definition chipList (title ic chipClass : string) (items : list string) : Element :=
  el "div" "bg-card-dark rounded-3xl p-6 border border-slate-800"
    [ el "h3" "font-bold text-white mb-3 flex items-center gap-2"
        [icon " text-primary text-sm" ic; Text title];
      el "div" "flex flex-wrap gap-2"
        (map (fun i => el "span" chipClass [Text i]) items) ].

Definition safeSection (safe : list string) : list Element :=
  when (0 <? List.length safe)%nat
    (chipList "Safe (Not Detected)" "verified"
       "px-3 py-1.5 bg-slate-800 text-slate-300 rounded-lg text-xs font-semibold" safe).

Definition ingredientsSection (ings : list string) : Element :=
  chipList "Ingredients" "restaurant"
    "px-3 py-1.5 bg-slate-800 text-slate-300 rounded-lg text-xs" ings.

Definition recommendationsSection (recs : option (list string)) : list Element :=
  when (truthy recs && (0 <? List.length (array_or_empty recs))%nat)
    (el "div" "bg-card-dark rounded-3xl p-6 border border-slate-800"
       [ el "h3" "font-bold text-white mb-3 flex items-center gap-2"
           [icon " text-primary text-sm" "lightbulb"; Text "Recommendations"];
         el "ul" "space-y-2"
           (map (fun rec =>
                   el "li" "flex items-start gap-2 text-sm text-slate-300"
                     [icon " text-primary text-sm mt-0.5" "check"; Text rec])
                (array_or_empty recs)) ]).

Definition actions : Element :=
  el "div" "fixed bottom-0 left-0 right-0 bg-background-dark/95 backdrop-blur-xl border-t border-slate-800 p-6 max-w-md mx-auto"
    [ el "div" "flex gap-3"
        [ el "button" "flex-1 bg-slate-800 hover:bg-slate-700 text-white font-semibold py-4 rounded-xl transition-colors"
            [Text "Dashboard"];
          el "button" "flex-1 bg-primary hover:bg-primary/90 text-background-dark font-bold py-4 rounded-xl transition-colors flex items-center justify-center gap-2"
            [icon "" "qr_code_scanner"; Text "Scan Again"] ] ].

Section Render.

(** [new Date(s).toLocaleString()]: the host's local rendering of a date
    string. *)
Variable toLocaleString : string -> string.

Definition scanTimeSection (t : option string) : list Element :=
  when (truthy_string t)
    (el "div" "text-center text-xs text-slate-500"
       [Text "Scanned at "; Text (toLocaleString (string_or_empty t))]).

(** The component.  Every [report.f] is a property read on a value that
    may be [null]; the guard [if (!report)] comes first. *)
Definition ResultPage (report : option DishReport) : Exc Element :=
  if negb (truthy report) then Ok noScanData
  else
    (dishName_ <- field report dishName ;;
     restaurant_ <- field report restaurant ;;
     risk <- field report riskLevel ;;
     veg <- field report isVegetarian ;;
     vgn <- field report isVegan ;;
     glu <- field report isGlutenFree ;;
     dai <- field report isDairyFree ;;
     nut <- field report isNutFree ;;
     al <- field report allergens ;;
     safe <- field report safeAllergens ;;
     ings <- field report ingredients ;;
     recs <- field report recommendations ;;
     time <- field report scanTime ;;
     Ok (el "div" "min-h-screen bg-background-dark pb-24"
           [ header;
             el "main" "px-6 py-8 space-y-6"
               ([ dishInfo dishName_ restaurant_ risk veg vgn glu dai nut;
                  allergenAlerts al ]
                  ++ safeSection safe
                  ++ [ingredientsSection ings]
                  ++ recommendationsSection recs
                  ++ scanTimeSection time);
             actions ]))%exc.

End Render.

End ResultPage.

(* ===================================================================== *)
(** ** The specification's rules, for comparison with the code *)
(* ===================================================================== *)

(** The definitions of this module follow the wording of the specification
    (sections 3 and 4); they are what the code above is compared with. *)
Module Spec.

(** The fixed 14-category universe, in declaration order. *)
Definition universe : list string :=
  [ "Celery"; "Gluten-Cereals"; "Crustaceans"; "Eggs"; "Fish"; "Lupin";
    "Milk"; "Molluscs"; "Mustard"; "Nuts"; "Peanuts"; "Sesame"; "Soya";
    "Sulphites" ].

Definition mem (x : string) (l : list string) : bool :=
  existsb (String.eqb x) l.

(** [safe_categories]: the universe minus the detected categories, in the
    universe's order. *)
Definition safe_categories (detected : list string) : list string :=
  filter (fun c => negb (mem c detected)) universe.

(** high > medium > low *)
Definition rank (s : AllergenSeverity) : nat :=
  match s with high => 2 | medium => 1 | low => 0 end.

Definition max_severity (a b : AllergenSeverity) : AllergenSeverity :=
  if (rank a <? rank b)%nat then b else a.

(** An [AllergenFinding], reduced to its category and severity. *)
Record Finding : Type := mkFinding {
  category : string;
  finding_severity : AllergenSeverity
}.

(** The severity of a category: the maximum among its findings, [None]
    when it has none. *)
Definition category_severity (fs : list Finding) (c : string)
  : option AllergenSeverity :=
  fold_left
    (fun acc f =>
       if String.eqb (category f) c
       then Some (match acc with
                  | None => finding_severity f
                  | Some s => max_severity s (finding_severity f)
                  end)
       else acc)
    fs None.

Definition is_high (s : AllergenSeverity) : bool :=
  match s with high => true | _ => false end.

Definition is_medium (s : AllergenSeverity) : bool :=
  match s with medium => true | _ => false end.

(** The number of distinct categories of an allergen list. *)
Definition categories (al : list Allergen) : nat :=
  List.length (nodup string_dec (map name al)).

(** The risk tiering law of section 4.5. *)
Definition score (al : list Allergen) : RiskLevel :=
  if existsb (fun a => is_high (severity a)) al || (3 <=? categories al)%nat
  then HIGH
  else if existsb (fun a => is_medium (severity a)) al then MEDIUM
  else LOW.

(** Tokens of a normalized phrase: the maximal runs without white space of
    its lower-cased form. *)
Fixpoint split (s cur : string) : list string :=
  match s with
  | EmptyString => if String.eqb cur "" then [] else [cur]
  | String c s' =>
      if JS.is_space c
      then (if String.eqb cur "" then split s' "" else cur :: split s' "")
      else split s' (cur ++ String c EmptyString)
  end.

Definition tokens (s : string) : list string := split (JS.toLowerCase s) "".

Fixpoint starts_with (phrase l : list string) : bool :=
  match phrase, l with
  | [], _ => true
  | _ :: _, [] => false
  | p :: phrase', x :: l' => String.eqb p x && starts_with phrase' l'
  end.

Fixpoint occurs (phrase l : list string) : bool :=
  starts_with phrase l ||
  match l with
  | [] => false
  | _ :: l' => occurs phrase l'
  end.

(** Whole-token matching: the indicator phrase is a contiguous token
    subsequence of the text. *)
Definition phrase_matches (phrase text : string) : bool :=
  match tokens phrase with
  | [] => false
  | p => occurs p (tokens text)
  end.

(** The nut-free status the whole-token law would give to a list of
    detected allergen names. *)
Definition nut_free_by_token (names : list string) : bool :=
  forallb (fun n => negb (phrase_matches "nut" n)) names.

End Spec.

(** A substring, as a proposition. *)
Definition Substring (sub s : string) : Prop :=
  exists pre post, s = pre ++ sub ++ post.

(** The four ways [analyzeDish] settles. *)
Inductive Selects (now : JS.Clock) (d : string)
  : JS.Property DishReport -> Prop :=
| SelectsPadThai :
    GeminiService.normalizedName d = "pad thai" ->
    Selects now d (JS.Own (GeminiService.padThai now))
| SelectsBurger :
    GeminiService.normalizedName d = "burger" ->
    Selects now d (JS.Own (GeminiService.burger now))
| SelectsInherited :
    In (GeminiService.normalizedName d) JS.Object_prototype_keys ->
    Selects now d (JS.Inherited (GeminiService.normalizedName d))
| SelectsDefault :
    JS.get (GeminiService.mockData now) (GeminiService.normalizedName d) = None ->
    Selects now d (JS.Own (GeminiService.defaultReport now d)).

(** A report with its scan time removed, and a settled analysis with the
    scan time of its report removed. *)
Definition withoutScanTime (r : DishReport) : DishReport :=
  {| dishName := dishName r;
     restaurant := restaurant r;
     allergens := allergens r;
     safeAllergens := safeAllergens r;
     ingredients := ingredients r;
     riskLevel := riskLevel r;
     isDairyFree := isDairyFree r;
     isGlutenFree := isGlutenFree r;
     isNutFree := isNutFree r;
     isVegan := isVegan r;
     isVegetarian := isVegetarian r;
     recommendations := recommendations r;
     scanTime := None |}.

Definition settledWithoutScanTime (p : JS.Promise (JS.Property DishReport))
  : JS.Promise (JS.Property DishReport) :=
  match p with
  | JS.Resolved (JS.Own r) => JS.Resolved (JS.Own (withoutScanTime r))
  | other => other
  end.

(** A clock for the examples. *)
Definition clock0 : JS.Clock := fun _ => "2024-01-01T00:00:00.000Z".

(** A response body with the given detected names and risk level. *)
Definition scanOf (names : list string) (risk : RiskLevel) : Scan.data :=
  {| Scan.dish_name := "Dish";
     Scan.restaurant_name := "Restaurant";
     Scan.allergens_detected := names;
     Scan.ingredients := [];
     Scan.risk_level := risk;
     Scan.dairy_free := true;
     Scan.gluten_free := true;
     Scan.vegan := true;
     Scan.vegetarian := true;
     Scan.recommendations := [] |}.

Import JS GeminiService BackendService.

(** The network answering every request with the given body. *)
Definition fetchOf (d : Scan.data) : string -> Scan.response :=
  fun _ => Scan.Response true (Some d).

(* ===================================================================== *)
(** ** Queries on rendered elements *)
(* ===================================================================== *)

Module Query.
Import View.

(** The number of elements with the given tag. *)
Fixpoint countTag (tag : string) (e : Element) : nat :=
  match e with
  | Text _ => 0
  | Node t _ children =>
      (if String.eqb t tag then 1 else 0)
      + list_sum (map (countTag tag) children)
  end.

(** The text below the elements with the given tag, in document order. *)
Fixpoint textsOfTag (tag : string) (e : Element) : list string :=
  match e with
  | Text _ => []
  | Node t _ children =>
      if String.eqb t tag then flat_map texts children
      else flat_map (textsOfTag tag) children
  end.

(** The value of an attribute of the first element with the given tag. *)
Fixpoint attrOfTag (tag attr : string) (e : Element) : option string :=
  match e with
  | Text _ => None
  | Node t attrs children =>
      if String.eqb t tag then JS.own attrs attr
      else
        (fix first (l : list Element) : option string :=
           match l with
           | [] => None
           | c :: l' =>
               match attrOfTag tag attr c with
               | Some v => Some v
               | None => first l'
               end
           end) children
  end.

End Query.

(* ===================================================================== *)
(** ** utils/api.ts *)
(* ===================================================================== *)

Module Api.

Definition API_BASE : string := "http://localhost:8000".

(** The argument of [registerRestaurant]. *)
Record Registration : Type := mkRegistration {
  reg_name : string;
  reg_email : string;
  reg_phone : option string;
  reg_address : option string;
  reg_business_type : option string
}.

(** The [dishData] argument of [addDish]. *)
Record NewDish : Type := mkNewDish {
  new_name : string;
  new_ingredients : list string;
  new_description : option string;
  new_cuisine_type : option string;
  new_category : option string;
  new_price : option string
}.

(** The value handed to [JSON.stringify] as the body of a request. *)
Inductive Body : Type :=
| RegistrationBody (data : Registration)
| DishBody (data : NewDish).

(** The arguments of a call of [fetch]; the method is GET when the code
    gives none. *)
Record Request : Type := mkRequest {
  url : string;
  method : string;
  headers : list (string * string);
  body : option Body
}.

(** What [fetch] settles to: a rejection, or a response with its [ok] flag
    and its body parsed as JSON ([None] when it does not parse). *)
Inductive Response (J : Type) : Type :=
| NetworkError (err : string)
| Http (ok : bool) (json : option J).
Arguments NetworkError {J} err.
Arguments Http {J} ok json.

Section Calls.

Variable J : Type.
Variable fetch : Request -> Response J.

(** [res.json()] *)
Definition json (j : option J) : Promise J :=
  match j with
  | Some v => Resolved v
  | None => Rejected "SyntaxError"
  end.

Definition registerRestaurant (data : Registration) : Promise J :=
  match fetch {| url := API_BASE ++ "/restaurants";
                 method := "POST";
                 headers := [("Content-Type", "application/json")];
                 body := Some (RegistrationBody data) |} with
  | NetworkError err => Rejected err
  | Http ok j => if negb ok then Rejected "Registration failed" else json j
  end.

Definition addDish (apiKey : string) (dishData : NewDish) : Promise J :=
  match fetch {| url := API_BASE ++ "/dishes";
                 method := "POST";
                 headers := [("Content-Type", "application/json");
                             ("X-API-Key", apiKey)];
                 body := Some (DishBody dishData) |} with
  | NetworkError err => Rejected err
  | Http ok j => if negb ok then Rejected "Failed to add dish" else json j
  end.

Definition getDishes (apiKey : string) : Promise J :=
  match fetch {| url := API_BASE ++ "/dishes";
                 method := "GET";
                 headers := [("X-API-Key", apiKey)];
                 body := None |} with
  | NetworkError err => Rejected err
  | Http ok j => if negb ok then Rejected "Failed to fetch dishes" else json j
  end.

(** Dish ids are the non-negative integers the backend assigns. *)
Definition generateQR (apiKey : string) (dishId : nat) : Promise J :=
  match fetch {| url := API_BASE ++ "/dishes/" ++ ResultPage.natText dishId
                          ++ "/qr-code";
                 method := "POST";
                 headers := [("X-API-Key", apiKey)];
                 body := None |} with
  | NetworkError err => Rejected err
  | Http ok j => if negb ok then Rejected "Failed to generate QR code" else json j
  end.

Definition scanQR (token : string) : Promise J :=
  match fetch {| url := API_BASE ++ "/scan/" ++ token;
                 method := "GET";
                 headers := [];
                 body := None |} with
  | NetworkError err => Rejected err
  | Http ok j => if negb ok then Rejected "Invalid QR code" else json j
  end.

Definition getAnalytics (apiKey : string) : Promise J :=
  match fetch {| url := API_BASE ++ "/analytics/scans";
                 method := "GET";
                 headers := [("X-API-Key", apiKey)];
                 body := None |} with
  | NetworkError err => Rejected err
  | Http ok j => if negb ok then Rejected "Failed to fetch analytics" else json j
  end.

End Calls.

End Api.

(* ===================================================================== *)
(** ** components/Dishcard.tsx *)
(* ===================================================================== *)

Module DishCard.
Import View.

(** The props; [onGenerateQR] is modelled by its presence. *)
Record Props : Type := mkProps {
  title : string;
  tags : list string;
  img : string;
  status : option string;
  alert : option bool;
  out : option bool;
  onGenerateQR : bool
}.

(** Truthiness of [boolean | undefined]. *)
Definition truthy_bool (v : option bool) : bool :=
  match v with Some b => b | None => false end.

Definition tagChip (t : string) : Element :=
  el "span"
    ("px-1.5 py-0.5 rounded text-[8px] font-bold "
       ++ (if includes t "ALERT" then "bg-danger/20 text-danger"
           else "bg-primary/20 text-primary"))
    [Text t].

Definition render (p : Props) : Element :=
  el "div"
    ("bg-card-dark rounded-xl overflow-hidden flex shadow-sm border border-slate-800 "
       ++ (if truthy_bool (out p) then "opacity-60" else ""))
    [ el "div"
        ("w-28 h-28 flex-none relative "
           ++ (if truthy_bool (out p) then "grayscale" else ""))
        (Node "img"
           [ ("className", "w-full h-full object-cover");
             ("src", "https://picsum.photos/seed/" ++ img p ++ "/200/200");
             ("alt", title p) ] []
         :: when (truthy_string (status p))
              (el "div" "absolute top-2 left-2 bg-primary text-background-dark text-[8px] font-bold px-1.5 py-0.5 rounded-full uppercase"
                 [Text (string_or_empty (status p))]));
      el "div" "p-4 flex flex-col justify-between flex-grow"
        ([ Node "div" []
             [ el "div" "flex justify-between items-start"
                 (el "h3" "font-bold text-sm text-white" [Text (title p)]
                  :: when (truthy_bool (alert p))
                       (icon " text-danger text-sm" "warning")
                  ++ when (truthy_bool (out p))
                       (el "span" "text-[8px] bg-slate-500 text-white px-1.5 py-0.5 rounded"
                          [Text "OUT OF STOCK"]));
               el "p" "text-[10px] text-slate-500 mt-1 line-clamp-1 italic"
                 [Text "Fresh ingredients, daily prep."] ];
           el "div" "flex flex-wrap gap-1 mt-2" (map tagChip (tags p)) ]
         ++ when (onGenerateQR p && negb (truthy_bool (out p)))
              (el "button" "mt-3 text-xs bg-primary/10 hover:bg-primary/20 text-primary font-semibold py-1.5 px-3 rounded-lg transition-colors"
                 [Text "Generate QR"])) ].

End DishCard.

(* ===================================================================== *)
(** ** components/qrcodedisplay.tsx *)
(* ===================================================================== *)

Module QRCodeDisplay.
Import View.

(** [QRCodeData] of types.ts. *)
Record QRCodeData : Type := mkQRCodeData {
  token : string;
  dishId : nat;
  imageUrl : option string;
  scanUrl : string
}.

(** What a click handler does to the browser. *)
Inductive Effect : Type :=
| WindowOpen (url target : string)
| ClipboardWrite (text : string)
| Alert (message : string).

(** [s.slice(0, n)] *)
Fixpoint slice0 (n : nat) (s : string) : string :=
  match n, s with
  | O, _ => EmptyString
  | S _, EmptyString => EmptyString
  | S n', String c s' => String c (slice0 n' s')
  end.

Definition handleDownload (qrData : QRCodeData) : list Effect :=
  if truthy_string (imageUrl qrData)
  then [WindowOpen (string_or_empty (imageUrl qrData)) "_blank"]
  else [].

Definition handleCopyUrl (qrData : QRCodeData) : list Effect :=
  [ ClipboardWrite (scanUrl qrData);
    Alert "QR scan URL copied to clipboard!" ].

(** The component; [onClose] is modelled by its presence. *)
Definition render (qrData : QRCodeData) (onClose : bool) : Element :=
  el "div" "fixed inset-0 bg-black/80 backdrop-blur-sm flex items-center justify-center z-50 p-6"
    [ el "div" "bg-card-dark rounded-3xl max-w-sm w-full p-8 relative border border-slate-700"
        (when onClose
           (el "button" "absolute top-4 right-4 w-8 h-8 rounded-full bg-slate-800 flex items-center justify-center text-slate-400 hover:text-white transition-colors"
              [icon " text-xl" "close"])
         ++ [ el "div" "text-center mb-6"
                [ el "div" "w-12 h-12 bg-primary/20 rounded-full flex items-center justify-center mx-auto mb-3"
                    [icon " text-primary text-2xl" "qr_code"];
                  el "h3" "text-xl font-bold text-white" [Text "QR Code Ready!"];
                  el "p" "text-slate-400 text-sm mt-1"
                    [Text "Scan to view allergen information"] ];
              el "div" "bg-white p-6 rounded-2xl mb-6"
                [ if truthy_string (imageUrl qrData)
                  then Node "img"
                         [ ("src", string_or_empty (imageUrl qrData));
                           ("alt", "QR Code");
                           ("className", "w-full h-auto") ] []
                  else el "div" "aspect-square flex items-center justify-center text-slate-400"
                         [ el "div" "text-center"
                             [ icon " text-6xl mb-2" "qr_code_2";
                               el "p" "text-sm" [Text "QR Code Preview"] ] ] ];
              el "div" "space-y-3"
                [ el "button" "w-full bg-primary hover:bg-primary/90 text-background-dark font-bold py-3 rounded-xl transition-colors"
                    [Text "Download QR Code"];
                  el "button" "w-full bg-slate-800 hover:bg-slate-700 text-white font-semibold py-3 rounded-xl transition-colors flex items-center justify-center gap-2"
                    [icon " text-sm" "link"; Text "Copy Scan URL"] ];
              el "div" "mt-6 p-4 bg-slate-900/50 rounded-xl border border-slate-800"
                [ el "p" "text-[10px] text-slate-500 text-center"
                    [ Text "Token: ";
                      el "span" "text-slate-300 font-mono"
                        [Text (slice0 16 (token qrData)); Text "..."] ] ] ]) ].

End QRCodeDisplay.

(* ===================================================================== *)
(** ** pages/scanboard: the handlers of [ScanPage] *)
(* ===================================================================== *)

Module ScanPage.
Import View.

(** What [handleScan] does, in order. *)
Inductive Effect (V : Type) : Type :=
| SetIsAnalyzing (b : bool)
| OnResult (result : V)
| ConsoleError (e : string)
| Alert (message : string).
Arguments SetIsAnalyzing {V} b.
Arguments OnResult {V} result.
Arguments ConsoleError {V} e.
Arguments Alert {V} message.

Section Handlers.

Variable V : Type.

(** The analysis that is awaited, and the [onResult] prop, which may
    throw. *)
Variable analyzeDish : string -> Promise V.
Variable onResult : V -> Exc unit.

Definition failed (e : string) : list (Effect V) :=
  [ConsoleError e; Alert "Analysis failed. Please try again."].

(** [handleScan]: the [try] block covers the awaited analysis and the call
    of [onResult]; the [finally] block runs on both paths. *)
Definition handleScan (dishName : string) : list (Effect V) :=
  [SetIsAnalyzing true]
    ++ match analyzeDish dishName with
       | Resolved result =>
           OnResult result
           :: match onResult result with
              | Ok _ => []
              | Throw e => failed e
              end
       | Rejected e => failed e
       end
    ++ [SetIsAnalyzing false].

(** [manualId || "Burger"] *)
Definition manualName (manualId : string) : string :=
  if String.eqb manualId "" then "Burger" else manualId.

(** The click on the scan card, and the click on the arrow button beside
    the manual input. *)
Definition onCardClick : list (Effect V) := handleScan "Pad Thai".

Definition onManualClick (manualId : string) : list (Effect V) :=
  handleScan (manualName manualId).

End Handlers.

End ScanPage.

(* ===================================================================== *)
(** ** App.tsx: navigation *)
(* ===================================================================== *)

Module App.

Inductive Page : Type := LANDING | DASHBOARD | SCAN | RESULT.

Section Navigation.

(** The values [currentDish] holds. *)
Variable R : Type.

Record State : Type := mkState {
  currentPage : Page;
  currentDish : option R
}.

(** [useState(Page.LANDING)], [useState(null)] *)
Definition initial : State :=
  {| currentPage := LANDING; currentDish := None |}.

(** The state after [navigateTo(page)]; it also scrolls the window to the
    top. *)
Definition navigateTo (page : Page) (st : State) : State :=
  {| currentPage := page; currentDish := currentDish st |}.

Definition showResult (report : R) (st : State) : State :=
  {| currentPage := RESULT; currentDish := Some report |}.

(** The callbacks [renderPage] hands to the pages. *)
Inductive Callback : Type :=
| OnStart
| OnScan
| OnNavigateHome
| OnBack
| OnResult (report : R)
| OnScanAgain.

(** The page [renderPage] renders, with the data it is given. *)
Inductive Rendered : Type :=
| LandingPage
| DashboardPage
| ScanPage
| ResultPage (report : option R).

Definition renderPage (st : State) : Rendered :=
  match currentPage st with
  | LANDING => LandingPage
  | DASHBOARD => DashboardPage
  | SCAN => ScanPage
  | RESULT => ResultPage (currentDish st)
  end.

(** The state after a callback is called; [None] when the rendered page
    was not given that callback.  [onResult] is called when the awaited
    analysis settles, which may be after the user has left the scan page:
    it is accepted on every page. *)
Definition call (st : State) (cb : Callback) : option State :=
  match currentPage st, cb with
  | _, OnResult report => Some (showResult report st)
  | LANDING, OnStart => Some (navigateTo DASHBOARD st)
  | DASHBOARD, OnScan => Some (navigateTo SCAN st)
  | DASHBOARD, OnNavigateHome => Some (navigateTo LANDING st)
  | SCAN, OnBack => Some (navigateTo DASHBOARD st)
  | RESULT, OnBack => Some (navigateTo DASHBOARD st)
  | RESULT, OnScanAgain => Some (navigateTo SCAN st)
  | _, _ => None
  end.

(** A session: the callbacks called one after the other from a state. *)
Fixpoint run (st : State) (cbs : list Callback) : option State :=
  match cbs with
  | [] => Some st
  | cb :: cbs' =>
      match call st cb with
      | Some st' => run st' cbs'
      | None => None
      end
  end.

End Navigation.

Arguments currentPage {R} s.
Arguments currentDish {R} s.
Arguments OnStart {R}.
Arguments OnScan {R}.
Arguments OnNavigateHome {R}.
Arguments OnBack {R}.
Arguments OnResult {R} report.
Arguments OnScanAgain {R}.
Arguments LandingPage {R}.
Arguments DashboardPage {R}.
Arguments ScanPage {R}.
Arguments ResultPage {R} report.

End App.

(* ===================================================================== *)
(** ** [ResultPage] on the values [analyzeDish] settles to *)
(* ===================================================================== *)

(** At run time the [report] prop is whatever [analyzeDish] resolved to: a
    report, or an object inherited from [Object.prototype], which has none
    of the properties of a report.  This module is the component of module
    [ResultPage] on those values: a missing property reads as [undefined]
    ([None]), and reading [length] or [map] of [undefined] throws. *)
Module ResultPageAny.
Import View.

(** [v.f] *)
Definition prop {A} (v : Property DishReport) (f : DishReport -> A) : option A :=
  match v with
  | Own r => Some (f r)
  | Inherited _ => None
  end.

(** [v.f] for an optional property [f]. *)
Definition prop_opt {A} (v : Property DishReport) (f : DishReport -> option A)
  : option A :=
  match v with
  | Own r => f r
  | Inherited _ => None
  end.

(** The [switch] of [getRiskColor] and of [getRiskIcon] with its [default]
    branch. *)
Definition getRiskColor (risk : option RiskLevel) : string :=
  match risk with
  | Some r => ResultPage.getRiskColor r
  | None => "bg-slate-500/20 text-slate-400"
  end.

Definition getRiskIcon (risk : option RiskLevel) : string :=
  match risk with
  | Some r => ResultPage.getRiskIcon r
  | None => "info"
  end.

(** [{x}] as a child: [undefined] renders nothing. *)
Definition child (x : option string) : list Element :=
  match x with
  | Some s => [Text s]
  | None => []
  end.

(** Truthiness of [boolean | undefined]. *)
Definition truthy_flag (v : option bool) : bool :=
  match v with Some b => b | None => false end.

(** [a.length] and [a.map] for [a] an array or [undefined]. *)
Definition defined {A} (a : option (list A)) (reading : string) : Exc (list A) :=
  match a with
  | Some l => Ok l
  | None =>
      Throw ("TypeError: Cannot read properties of undefined (reading '"
               ++ reading ++ "')")
  end.

Definition dishInfo (dishName_ : option string) (restaurant_ : option string)
    (risk : option RiskLevel) (veg vgn glu dai nut : option bool) : Element :=
  el "div" "bg-card-dark rounded-3xl p-6 border border-slate-800"
    [ el "div" "flex items-start justify-between mb-4"
        [ Node "div" []
            (el "h2" "text-2xl font-bold text-white mb-1" (child dishName_)
             :: when (truthy_string restaurant_)
                  (el "p" "text-sm text-slate-400"
                     [Text "📍 "; Text (string_or_empty restaurant_)]));
          el "div"
            ("px-4 py-2 rounded-full border font-bold text-sm uppercase tracking-wide "
               ++ getRiskColor risk)
            [ el "div" "flex items-center gap-2"
                (icon " text-base" (getRiskIcon risk)
                 :: child (option_map ResultPage.riskText risk)) ] ];
      el "div" "flex flex-wrap gap-2 pt-4 border-t border-slate-800"
        (map ResultPage.flagChip
           [ ("Vegetarian", truthy_flag veg, "eco");
             ("Vegan", truthy_flag vgn, "spa");
             ("Gluten-Free", truthy_flag glu, "grain");
             ("Dairy-Free", truthy_flag dai, "water_drop");
             ("Nut-Free", truthy_flag nut, "nature") ]) ].

Section Render.

Variable toLocaleString : string -> string.

Definition ResultPage (report : option (Property DishReport)) : Exc Element :=
  match report with
  | None => Ok ResultPage.noScanData
  | Some v =>
      (al <- defined (prop v allergens) "length" ;;
       ings <- defined (prop v ingredients) "map" ;;
       Ok (el "div" "min-h-screen bg-background-dark pb-24"
             [ ResultPage.header;
               el "main" "px-6 py-8 space-y-6"
                 ([ dishInfo (prop v dishName) (prop_opt v restaurant)
                      (prop v riskLevel)
                      (prop v isVegetarian) (prop v isVegan)
                      (prop v isGlutenFree) (prop v isDairyFree)
                      (prop v isNutFree);
                    ResultPage.allergenAlerts al ]
                    ++ match prop v safeAllergens with
                       | Some safe => ResultPage.safeSection safe
                       | None => []
                       end
                    ++ [ResultPage.ingredientsSection ings]
                    ++ ResultPage.recommendationsSection
                         (prop_opt v recommendations)
                    ++ ResultPage.scanTimeSection toLocaleString
                         (prop_opt v scanTime));
               ResultPage.actions ]))%exc
  end.

End Render.

End ResultPageAny.

(** A string of characters of the ASCII range only.  On such strings
    [toLowerCase], [toUpperCase] and [trim] of module [JS] are the methods
    of JavaScript; a character outside the range is left as it is by the
    three of them, which JavaScript does not do. *)
Fixpoint ascii_only (s : string) : bool :=
  match s with
  | EmptyString => true
  | String c s' => (nat_of_ascii c <? 128)%nat && ascii_only s'
  end.

(** A string of white space only. *)
Fixpoint blank (s : string) : bool :=
  match s with
  | EmptyString => true
  | String c s' => is_space c && blank s'
  end.

(* ===================================================================== *)
(** ** The tiering law and the aggregation rule, in the words of the
    specification *)
(* ===================================================================== *)

Section SpecFacts.

Lemma existsb_is_high (al : list Allergen) :
  existsb (fun a => Spec.is_high (severity a)) al = true <->
  exists a, In a al /\ severity a = high.
Proof.
  rewrite existsb_exists. split; intros (a & Hin & H); exists a; split; auto.
  - now destruct (severity a).
  - now rewrite H.
Qed.

Lemma existsb_is_medium (al : list Allergen) :
  existsb (fun a => Spec.is_medium (severity a)) al = true <->
  exists a, In a al /\ severity a = medium.
Proof.
  rewrite existsb_exists. split; intros (a & Hin & H); exists a; split; auto.
  - now destruct (severity a).
  - now rewrite H.
Qed.

(** HIGH if and only if some category has severity high or at least three
    distinct categories are present. *)
Lemma score_HIGH_iff (al : list Allergen) :
  Spec.score al = HIGH <->
  (exists a, In a al /\ severity a = high) \/ 3 <= Spec.categories al.
Proof.
  unfold Spec.score. rewrite <- existsb_is_high, <- Nat.leb_le, <- orb_true_iff.
  destruct (_ || _); [tauto|].
  destruct (existsb _ al); split; discriminate.
Qed.

(** MEDIUM if and only if no severity is high, some severity is medium and
    fewer than three distinct categories are present. *)
Lemma score_MEDIUM_iff (al : list Allergen) :
  Spec.score al = MEDIUM <->
  ~ (exists a, In a al /\ severity a = high) /\
  (exists a, In a al /\ severity a = medium) /\
  Spec.categories al < 3.
Proof.
  unfold Spec.score.
  rewrite <- existsb_is_high, <- existsb_is_medium, <- Nat.leb_gt.
  destruct (existsb (fun a => Spec.is_high _) al); cbn [orb].
  { split; [discriminate | intros (H & _); now elim H]. }
  destruct (3 <=? Spec.categories al)%nat.
  { split; [discriminate | intros (_ & _ & H); discriminate H]. }
  destruct (existsb _ al); split.
  - intros _. split; [discriminate | split; reflexivity].
  - reflexivity.
  - discriminate.
  - intros (_ & H & _); discriminate H.
Qed.

(** LOW when no allergen is found. *)
Lemma score_nil : Spec.score [] = LOW.
Proof. reflexivity. Qed.

(** Two findings for Peanuts of severities low and high aggregate to
    high. *)
Lemma category_severity_peanuts :
  Spec.category_severity
    [Spec.mkFinding "Peanuts" low; Spec.mkFinding "Milk" medium;
     Spec.mkFinding "Peanuts" high] "Peanuts"
  = Some high.
Proof. reflexivity. Qed.

End SpecFacts.

(* ===================================================================== *)
(** ** Facts about the string methods *)
(* ===================================================================== *)

Section StringFacts.

Lemma prefix_app (p s : string) :
  prefix p s = true <-> exists post, s = p ++ post.
Proof.
  revert s; induction p as [|c p IH]; intros s.
  - destruct s; simpl; split; eauto.
  - destruct s as [|c' s]; simpl.
    + split; [discriminate | intros [post H]; discriminate].
    + destruct (ascii_dec c c') as [->|Hne].
      * rewrite IH. split; intros [post H]; exists post.
        -- now rewrite H.
        -- now injection H.
      * split; [discriminate | intros [post H]].
        injection H as H1 _. congruence.
Qed.

Lemma includes_Substring (s sub : string) :
  includes s sub = true <-> Substring sub s.
Proof.
  induction s as [|c s IH]; cbn [includes].
  - rewrite orb_false_r, prefix_app. split.
    + intros [post H]. now exists "", post.
    + intros (pre & post & H). destruct pre; [|discriminate].
      now exists post.
  - rewrite orb_true_iff, prefix_app, IH. split.
    + intros [[post H] | (pre & post & H)].
      * now exists "", post.
      * exists (String c pre), post. simpl. now rewrite H.
    + intros (pre & post & H). destruct pre as [|c' pre]; simpl in H.
      * left. now exists post.
      * right. injection H as _ H. now exists pre, post.
Qed.

Lemma lower_upper_char (c : ascii) :
  lower_char (upper_char c) = lower_char c.
Proof.
  destruct c as [b0 b1 b2 b3 b4 b5 b6 b7].
  destruct b0, b1, b2, b3, b4, b5, b6, b7; reflexivity.
Qed.

Lemma lower_char_idem (c : ascii) :
  lower_char (lower_char c) = lower_char c.
Proof.
  destruct c as [b0 b1 b2 b3 b4 b5 b6 b7].
  destruct b0, b1, b2, b3, b4, b5, b6, b7; reflexivity.
Qed.

Lemma toLowerCase_idem (s : string) :
  toLowerCase (toLowerCase s) = toLowerCase s.
Proof.
  induction s as [|c s IH]; simpl; [reflexivity|].
  now rewrite lower_char_idem, IH.
Qed.

(** Capitalizing a name does not change its lower-cased form. *)
Lemma toLowerCase_capitalize (nm : string) :
  toLowerCase (capitalize nm) = toLowerCase nm.
Proof.
  destruct nm as [|c nm]; [reflexivity|].
  unfold capitalize; simpl. now rewrite lower_upper_char.
Qed.

End StringFacts.

(* ===================================================================== *)
(** ** The backend transform *)
(* ===================================================================== *)

Section BackendFacts.

Variable now : Clock.

(** [analyzeDishFromBackend] resolves exactly on an [ok] response whose
    body parses, with the transform of the body. *)
Lemma analyzeDishFromBackend_Resolved fetch token r :
  analyzeDishFromBackend now fetch token = Resolved r <->
  exists d, fetch (scanUrl token) = Scan.Response true (Some d)
            /\ r = toDishReport now d.
Proof.
  unfold analyzeDishFromBackend.
  destruct (fetch (scanUrl token)) as [err | [|] [d|] | [|] te]; simpl; split;
    try discriminate; try (intros (d' & H & _); discriminate).
  - intros H. injection H as <-. now exists d.
  - intros (d' & H & ->). now injection H as <-.
Qed.

(** The fetch can fail: the call is rejected on a response that is not
    [ok]. *)
Lemma analyzeDishFromBackend_not_ok fetch token body :
  fetch (scanUrl token) = Scan.Response false body ->
  analyzeDishFromBackend now fetch token
  = Rejected "Failed to fetch dish information".
Proof. unfold analyzeDishFromBackend. now intros ->. Qed.

Lemma nutFree_toAllergen (names : list string) :
  nutFree (map toAllergen names)
  = forallb (fun n => negb (includes (toLowerCase n) "nut")) names.
Proof.
  unfold nutFree. induction names as [|n names IH]; simpl; [reflexivity|].
  now rewrite toLowerCase_capitalize, IH.
Qed.

Lemma isNutFree_toDishReport d :
  isNutFree (toDishReport now d) = true <->
  forall n, In n (Scan.allergens_detected d) ->
            ~ Substring "nut" (toLowerCase n).
Proof.
  simpl. rewrite nutFree_toAllergen, forallb_forall.
  split; intros H n Hn; specialize (H n Hn).
  - rewrite <- includes_Substring. now destruct (includes _ _).
  - rewrite <- includes_Substring in H. now destruct (includes _ _).
Qed.

Lemma severity_toAllergen (names : list string) :
  Forall (fun a => severity a = high) (map toAllergen names).
Proof. induction names; simpl; constructor; auto. Qed.

End BackendFacts.

Lemma getIcon_nut (nm : string) :
  Substring "nut" (toLowerCase nm) -> AllergenBadge.getIcon nm = "eco".
Proof.
  intros H. apply includes_Substring in H.
  unfold AllergenBadge.getIcon. now rewrite H.
Qed.

(* ===================================================================== *)
(** ** The simulated analysis *)
(* ===================================================================== *)

Section MockFacts.

Variable now : Clock.

(** The lookup finds nothing exactly for the keys that are neither an own
    key of the table nor a property of [Object.prototype]. *)
Lemma get_mockData_None (k : string) :
  get (mockData now) k = None <->
  k <> "pad thai" /\ k <> "burger" /\ ~ In k Object_prototype_keys.
Proof.
  unfold get, mockData; cbn [own].
  destruct (String.eqb_spec k "pad thai") as [->|H1].
  { split; [discriminate | intros (H & _); congruence]. }
  destruct (String.eqb_spec k "burger") as [->|H2].
  { split; [discriminate | intros (_ & H & _); congruence]. }
  destruct (existsb (String.eqb k) Object_prototype_keys) eqn:E.
  - apply existsb_exists in E as (k' & Hin & Hk).
    apply String.eqb_eq in Hk; subst k'.
    split; [discriminate | intros (_ & _ & H); contradiction].
  - split; [intros _ | reflexivity].
    repeat split; auto. intros Hin.
    assert (existsb (String.eqb k) Object_prototype_keys = true) as E'.
    { apply existsb_exists. exists k. split; [assumption|apply String.eqb_refl]. }
    congruence.
Qed.

Lemma analyzeDish_Selects (d : string) :
  exists v, analyzeDish now d = Resolved v /\ Selects now d v.
Proof.
  unfold analyzeDish.
  destruct (get (mockData now) (normalizedName d)) as [v|] eqn:G.
  - exists v. split; [reflexivity|]. revert G.
    unfold get, mockData; cbn [own].
    destruct (String.eqb_spec (normalizedName d) "pad thai") as [E1|_].
    { intros G; injection G as <-. now constructor. }
    destruct (String.eqb_spec (normalizedName d) "burger") as [E2|_].
    { intros G; injection G as <-. now constructor. }
    destruct (existsb _ Object_prototype_keys) eqn:E; [|discriminate].
    intros G; injection G as <-. apply SelectsInherited.
    apply existsb_exists in E as (k' & Hin & Hk).
    apply String.eqb_eq in Hk. now subst k'.
  - exists (Own (defaultReport now d)). split; [reflexivity|].
    now apply SelectsDefault.
Qed.

Lemma analyzeDish_Own_inv (d : string) (r : DishReport) :
  analyzeDish now d = Resolved (Own r) ->
  (normalizedName d = "pad thai" /\ r = padThai now) \/
  (normalizedName d = "burger" /\ r = burger now) \/
  (get (mockData now) (normalizedName d) = None /\ r = defaultReport now d).
Proof.
  destruct (analyzeDish_Selects d) as (v & -> & S). intros H.
  injection H as ->. inversion S; subst; auto.
Qed.

(** The settled value, by cases on the normalized name. *)
Lemma analyzeDish_eq (d : string) :
  analyzeDish now d
  = Resolved
      (if String.eqb (normalizedName d) "pad thai" then Own (padThai now)
       else if String.eqb (normalizedName d) "burger" then Own (burger now)
       else if existsb (String.eqb (normalizedName d)) Object_prototype_keys
            then Inherited (normalizedName d)
            else Own (defaultReport now d)).
Proof.
  unfold analyzeDish, get, mockData; cbn [own].
  destruct (String.eqb _ "pad thai"); [reflexivity|].
  destruct (String.eqb _ "burger"); [reflexivity|].
  now destruct (existsb _ Object_prototype_keys).
Qed.

Lemma analyzeDish_default (d : string) :
  get (mockData now) (normalizedName d) = None ->
  analyzeDish now d = Resolved (Own (defaultReport now d)).
Proof. unfold analyzeDish. now intros ->. Qed.

End MockFacts.

(** Trimming keeps a lower-case string lower-case, so a normalized name has
    no upper-case letter. *)
Lemma toLowerCase_trimStart (s : string) :
  toLowerCase s = s -> toLowerCase (trimStart s) = trimStart s.
Proof.
  induction s as [|c s IH]; simpl; [reflexivity|]. intros H.
  injection H as Hc Hs. destruct (is_space c); [auto|].
  simpl. now rewrite Hc, Hs.
Qed.

Lemma toLowerCase_trimEnd (s : string) :
  toLowerCase s = s -> toLowerCase (trimEnd s) = trimEnd s.
Proof.
  induction s as [|c s IH]; simpl; [reflexivity|]. intros H.
  injection H as Hc Hs. specialize (IH Hs).
  destruct (trimEnd s) as [|c' t].
  - destruct (is_space c); simpl; [reflexivity | now rewrite Hc].
  - cbn [toLowerCase] in *. now rewrite Hc, IH.
Qed.

Lemma toLowerCase_normalizedName (d : string) :
  toLowerCase (normalizedName d) = normalizedName d.
Proof.
  unfold normalizedName, trim.
  apply toLowerCase_trimEnd, toLowerCase_trimStart, toLowerCase_idem.
Qed.

(** Of the properties of [Object.prototype], a normalized name can only be
    [constructor] or [__proto__]: the others have an upper-case letter. *)
Lemma inherited_key_reachable (d : string) :
  In (normalizedName d) Object_prototype_keys ->
  normalizedName d = "constructor" \/ normalizedName d = "__proto__".
Proof.
  intros Hin. pose proof (toLowerCase_normalizedName d) as L.
  simpl in Hin.
  repeat (destruct Hin as [E | Hin];
          [rewrite <- E in L |- *;
           first [now left | now right | cbv in L; discriminate L]|]).
  contradiction.
Qed.

(** The inherited properties are reached: the call settles to
    [Object.prototype.constructor], which is no report. *)
Lemma analyzeDish_constructor (now : Clock) :
  analyzeDish now "constructor" = Resolved (Inherited "constructor") /\
  analyzeDish now " __PROTO__ " = Resolved (Inherited "__proto__").
Proof. split; reflexivity. Qed.

(* ===================================================================== *)
(** ** Nut-free status and icons: matching by substring *)
(* ===================================================================== *)

(** C1, counterexample.  The whole-token law gives no Nuts match for
    "nutmeg" (nor for "peanuts") against the indicator "nut", yet for a
    response whose detected allergen is "nutmeg" (or "peanuts")
    [analyzeDishFromBackend] reports [isNutFree = false]: the status comes
    from substring containment of "nut" in the allergen name. *)
Lemma nutmeg_not_nut_free_counterexample :
  Spec.phrase_matches "nut" "nutmeg" = false /\
  Spec.nut_free_by_token ["nutmeg"] = true /\
  (exists r,
      analyzeDishFromBackend clock0 (fetchOf (scanOf ["nutmeg"] LOW)) "t"
      = Resolved r
      /\ isNutFree r = false) /\
  Spec.nut_free_by_token ["peanuts"] = true /\
  (exists r,
      analyzeDishFromBackend clock0 (fetchOf (scanOf ["peanuts"] LOW)) "t"
      = Resolved r
      /\ isNutFree r = false).
Proof.
  repeat split; try reflexivity; eexists; split; reflexivity.
Qed.

(** C1, as the code has it.  The nut-free status derived by
    [analyzeDishFromBackend] is computed by substring containment on the
    allergen names of the report, which are the detected names with their
    first character upper-cased: it is true exactly when no allergen name
    contains "nut", in any letter case, anywhere in the name.  [getIcon]
    classifies the same way: a name containing "nut" gets the icon
    'eco'. *)
Theorem nut_free_is_substring_containment :
  (forall now fetch token r,
      analyzeDishFromBackend now fetch token = Resolved r ->
      (exists d,
          fetch (scanUrl token) = Scan.Response true (Some d) /\
          map name (allergens r) = map capitalize (Scan.allergens_detected d))
      /\ (isNutFree r = true <->
          forall a, In a (allergens r) ->
                    ~ Substring "nut" (toLowerCase (name a))))
  /\ (forall nm,
         Substring "nut" (toLowerCase nm) -> AllergenBadge.getIcon nm = "eco").
Proof.
  split.
  - intros now fetch token r H.
    apply analyzeDishFromBackend_Resolved in H as (d & Hf & ->).
    split.
    + exists d. split; [assumption|]. simpl. now rewrite map_map.
    + cbn [toDishReport isNutFree allergens]. unfold nutFree.
      rewrite forallb_forall.
      split; intros H a Ha; specialize (H a Ha).
      * rewrite <- includes_Substring. now destruct (includes _ _).
      * rewrite <- includes_Substring in H. now destruct (includes _ _).
  - exact getIcon_nut.
Qed.

Lemma nut_free_is_substring_containment_witness :
  ((exists d,
       fetchOf (scanOf ["coconut milk"] LOW) (scanUrl "t")
       = Scan.Response true (Some d) /\
       map name (allergens (toDishReport clock0 (scanOf ["coconut milk"] LOW)))
       = map capitalize (Scan.allergens_detected d))
   /\ (isNutFree (toDishReport clock0 (scanOf ["coconut milk"] LOW)) = true <->
       forall a,
         In a (allergens (toDishReport clock0 (scanOf ["coconut milk"] LOW))) ->
         ~ Substring "nut" (toLowerCase (name a))))
  /\ AllergenBadge.getIcon "Doughnut glaze" = "eco".
Proof.
  split.
  - apply (proj1 nut_free_is_substring_containment
             clock0 (fetchOf (scanOf ["coconut milk"] LOW)) "t").
    reflexivity.
  - apply (proj2 nut_free_is_substring_containment).
    exists "dough", " glaze". reflexivity.
Defined.

(* ===================================================================== *)
(** ** Risk level *)
(* ===================================================================== *)

(** C2, counterexample.  The report [analyzeDish] returns for "burger" has a
    high-severity allergen and three categories, and its risk level is
    MEDIUM where the tiering law gives HIGH; and a backend response that
    detects one allergen with risk level MEDIUM becomes a report whose only
    allergen has severity high and whose risk level is MEDIUM. *)
Lemma high_severity_reported_MEDIUM_counterexample :
  (exists r,
      analyzeDish clock0 "burger" = Resolved (Own r) /\
      (exists a, In a (allergens r) /\ severity a = high) /\
      Spec.categories (allergens r) = 3 /\
      Spec.score (allergens r) = HIGH /\
      riskLevel r = MEDIUM) /\
  (exists r,
      analyzeDishFromBackend clock0 (fetchOf (scanOf ["milk"] MEDIUM)) "t"
      = Resolved r /\
      map severity (allergens r) = [high] /\
      Spec.score (allergens r) = HIGH /\
      riskLevel r = MEDIUM).
Proof.
  split.
  - exists (burger clock0). repeat split; try reflexivity.
    exists (mkAllergen "Gluten" high (Some "Wheat bun")).
    split; [now left | reflexivity].
  - eexists. repeat split; reflexivity.
Qed.

(** C2, as the code has it.  The frontend computes no tier: [analyzeDish]
    returns the level stored with the selected report, and for every dish
    name that does not select the "burger" entry, that is, whose normalized
    form (lower-cased and trimmed) is not "burger", that level is the one
    the tiering law gives for the report's allergens;
    [analyzeDishFromBackend] returns the backend's [risk_level]
    unchanged. *)
Theorem riskLevel_stored_or_passed_through :
  (forall now d r,
      analyzeDish now d = Resolved (Own r) ->
      normalizedName d <> "burger" ->
      riskLevel r = Spec.score (allergens r))
  /\ (forall now fetch token r,
         analyzeDishFromBackend now fetch token = Resolved r ->
         exists d,
           fetch (scanUrl token) = Scan.Response true (Some d) /\
           riskLevel r = Scan.risk_level d).
Proof.
  split.
  - intros now d r H Hb.
    apply analyzeDish_Own_inv in H as [(_ & ->) | [(E & _) | (_ & ->)]];
      [reflexivity | contradiction | reflexivity].
  - intros now fetch token r H.
    apply analyzeDishFromBackend_Resolved in H as (d & Hf & ->).
    now exists d.
Qed.

Lemma riskLevel_stored_or_passed_through_witness :
  riskLevel (padThai clock0) = Spec.score (allergens (padThai clock0)) /\
  riskLevel (defaultReport clock0 "Ramen") =
    Spec.score (allergens (defaultReport clock0 "Ramen")) /\
  (exists d,
      fetchOf (scanOf ["eggs"] LOW) (scanUrl "t")
      = Scan.Response true (Some d) /\
      riskLevel (toDishReport clock0 (scanOf ["eggs"] LOW)) = Scan.risk_level d).
Proof.
  split; [|split].
  - apply (proj1 riskLevel_stored_or_passed_through clock0 " Pad Thai");
      [reflexivity | discriminate].
  - apply (proj1 riskLevel_stored_or_passed_through clock0 "Ramen");
      [reflexivity | discriminate].
  - apply (proj2 riskLevel_stored_or_passed_through
             clock0 (fetchOf (scanOf ["eggs"] LOW)) "t").
    reflexivity.
Defined.

(* ===================================================================== *)
(** ** Severities and safe categories of the backend transform *)
(* ===================================================================== *)

(** C3, counterexample.  A single finding for "milk" of severity low
    aggregates to low, but the report built from the response that detects
    "milk" gives that allergen severity high. *)
Lemma low_finding_reported_high_counterexample :
  Spec.category_severity [Spec.mkFinding "milk" low] "milk" = Some low /\
  exists r,
    analyzeDishFromBackend clock0
      (fetchOf (scanOf (map Spec.category [Spec.mkFinding "milk" low]) LOW)) "t"
    = Resolved r /\
    map name (allergens r) = ["Milk"] /\
    map severity (allergens r) = [high].
Proof.
  split; [reflexivity|]. eexists. repeat split; reflexivity.
Qed.

(** C3, as the code has it.  The backend response carries allergen names
    only; [analyzeDishFromBackend] lists one allergen per detected name, in
    order, named by the capitalized name, and gives every one of them the
    constant severity high. *)
Theorem backend_severity_constant_high :
  forall now fetch token r,
    analyzeDishFromBackend now fetch token = Resolved r ->
    Forall (fun a => severity a = high) (allergens r) /\
    exists d,
      fetch (scanUrl token) = Scan.Response true (Some d) /\
      map name (allergens r) = map capitalize (Scan.allergens_detected d).
Proof.
  intros now fetch token r H.
  apply analyzeDishFromBackend_Resolved in H as (d & Hf & ->).
  split; [apply severity_toAllergen|].
  exists d. split; [assumption|].
  simpl. now rewrite map_map.
Qed.

Lemma backend_severity_constant_high_witness :
  Forall (fun a => severity a = high)
         (allergens (toDishReport clock0 (scanOf ["milk"; "soya"] LOW))) /\
  exists d,
    fetchOf (scanOf ["milk"; "soya"] LOW) (scanUrl "t")
    = Scan.Response true (Some d) /\
    map name (allergens (toDishReport clock0 (scanOf ["milk"; "soya"] LOW)))
    = map capitalize (Scan.allergens_detected d).
Proof.
  apply (backend_severity_constant_high
           clock0 (fetchOf (scanOf ["milk"; "soya"] LOW)) "t").
  reflexivity.
Defined.

(** C4, counterexample.  For a response that detects nothing the safe list
    is empty although the complement is the whole 14-category universe; and
    the safe list of the "pad thai" report has four names where the
    complement of its allergens has twelve. *)
Lemma safe_list_not_complement_counterexample :
  (exists r,
      analyzeDishFromBackend clock0 (fetchOf (scanOf [] LOW)) "t" = Resolved r /\
      allergens r = [] /\
      safeAllergens r = [] /\
      Spec.safe_categories (map name (allergens r)) = Spec.universe /\
      List.length Spec.universe = 14) /\
  (exists r,
      analyzeDish clock0 "pad thai" = Resolved (Own r) /\
      safeAllergens r = ["Dairy"; "Gluten"; "Soy"; "Tree Nuts"] /\
      List.length (Spec.safe_categories (map name (allergens r))) = 12).
Proof.
  split; eexists; repeat split; reflexivity.
Qed.

(** C4, as the code has it.  The safe list is not computed as a complement:
    [analyzeDishFromBackend] always returns the empty safe list, and
    [analyzeDish] returns the list stored with the selected report.  In
    every report either of them returns, no safe name is a detected
    allergen name. *)
Theorem safe_list_disjoint_from_allergens :
  (forall now fetch token r,
      analyzeDishFromBackend now fetch token = Resolved r ->
      safeAllergens r = [])
  /\ (forall now d r,
         analyzeDish now d = Resolved (Own r) ->
         forall c, In c (safeAllergens r) -> ~ In c (map name (allergens r))).
Proof.
  split.
  - intros now fetch token r H.
    now apply analyzeDishFromBackend_Resolved in H as (d & _ & ->).
  - intros now d r H c Hs Ha.
    apply analyzeDish_Own_inv in H as [(_ & ->) | [(_ & ->) | (_ & ->)]];
      simpl in Hs, Ha;
      repeat (destruct Hs as [<- | Hs]; [intuition discriminate|]);
      contradiction.
Qed.

Lemma safe_list_disjoint_from_allergens_witness :
  safeAllergens (toDishReport clock0 (scanOf ["fish"] HIGH)) = [] /\
  ~ In "Dairy" (map name (allergens (padThai clock0))).
Proof.
  split.
  - apply (proj1 safe_list_disjoint_from_allergens
             clock0 (fetchOf (scanOf ["fish"] HIGH)) "t").
    reflexivity.
  - apply (proj2 safe_list_disjoint_from_allergens clock0 "PAD THAI");
      [reflexivity | now left].
Defined.

(* ===================================================================== *)
(** ** The report for a dish name the table does not know *)
(* ===================================================================== *)

(** C5, counterexample.  A dish name that matches nothing gets a report in
    which all four dietary flags are false. *)
Lemma unknown_dish_flags_false_counterexample :
  exists r,
    analyzeDish clock0 "mystery stew" = Resolved (Own r) /\
    get (mockData clock0) (normalizedName "mystery stew") = None /\
    isVegetarian r = false /\ isVegan r = false /\
    isGlutenFree r = false /\ isDairyFree r = false.
Proof. eexists. repeat split; reflexivity. Qed.

(** C5, as the code has it.  [analyzeDish] evaluates no disqualifier: the
    flags are stored with the selected report.  When the lookup of the
    normalized dish name finds nothing, the report returned has all four
    dietary flags (vegetarian, vegan, gluten-free, dairy-free) false. *)
Theorem unknown_dish_flags_false :
  forall now d,
    get (mockData now) (normalizedName d) = None ->
    exists r,
      analyzeDish now d = Resolved (Own r) /\
      isVegetarian r = false /\ isVegan r = false /\
      isGlutenFree r = false /\ isDairyFree r = false.
Proof.
  intros now d H. exists (defaultReport now d).
  split; [now apply analyzeDish_default|]. repeat split.
Qed.

Lemma unknown_dish_flags_false_witness :
  exists r,
    analyzeDish clock0 "Tofu salad" = Resolved (Own r) /\
    isVegetarian r = false /\ isVegan r = false /\
    isGlutenFree r = false /\ isDairyFree r = false.
Proof.
  apply (unknown_dish_flags_false clock0 "Tofu salad"). reflexivity.
Defined.

(** C6, counterexample.  On the empty dish name [analyzeDish] returns a
    report with one allergen, the four flags false, risk level MEDIUM and
    one recommendation. *)
Lemma empty_input_default_report_counterexample :
  exists r,
    analyzeDish clock0 "" = Resolved (Own r) /\
    List.length (allergens r) = 1 /\
    isVegetarian r = false /\ isVegan r = false /\
    isGlutenFree r = false /\ isDairyFree r = false /\
    riskLevel r = MEDIUM /\
    option_map (@List.length string) (recommendations r) = Some 1.
Proof. eexists. repeat split; reflexivity. Qed.

(** C6, as the code has it.  For an empty or blank dish name (one whose
    normalized form is empty) [analyzeDish] returns the default report: the
    single allergen Gluten of severity medium, the four dietary flags false,
    risk level MEDIUM and the single recommendation to verify the
    ingredients with the staff. *)
Theorem empty_input_default_report :
  forall now d,
    normalizedName d = "" ->
    exists r,
      analyzeDish now d = Resolved (Own r) /\
      dishName r = d /\
      allergens r = [mkAllergen "Gluten" medium (Some "May contain wheat")] /\
      isVegetarian r = false /\ isVegan r = false /\
      isGlutenFree r = false /\ isDairyFree r = false /\
      riskLevel r = MEDIUM /\
      recommendations r
      = Some ["Please verify ingredients with restaurant staff"].
Proof.
  intros now d H. exists (defaultReport now d). split.
  - apply analyzeDish_default. rewrite H. reflexivity.
  - repeat split.
Qed.

Lemma empty_input_default_report_witness :
  exists r,
    analyzeDish clock0 "   " = Resolved (Own r) /\
    dishName r = "   " /\
    allergens r = [mkAllergen "Gluten" medium (Some "May contain wheat")] /\
    isVegetarian r = false /\ isVegan r = false /\
    isGlutenFree r = false /\ isDairyFree r = false /\
    riskLevel r = MEDIUM /\
    recommendations r
    = Some ["Please verify ingredients with restaurant staff"].
Proof.
  apply (empty_input_default_report clock0 "   "). reflexivity.
Defined.

(** C7, counterexample.  Nonsensical input does not degrade to "no
    finding": the report returned for it lists the allergen Gluten. *)
Lemma unmatched_input_has_finding_counterexample :
  exists r,
    analyzeDish clock0 "%%% ??" = Resolved (Own r) /\
    get (mockData clock0) (normalizedName "%%% ??") = None /\
    map name (allergens r) = ["Gluten"].
Proof. eexists. repeat split; reflexivity. Qed.

(** C7, as the code has it.  For every dish name [analyzeDish] settles to a
    value and is never rejected; input that the lookup does not find
    degrades to the default report, which lists the one allergen Gluten,
    rather than to a failure. *)
Theorem analyzeDish_total :
  forall now d,
    (exists v, analyzeDish now d = Resolved v) /\
    (get (mockData now) (normalizedName d) = None ->
     analyzeDish now d = Resolved (Own (defaultReport now d)) /\
     map name (allergens (defaultReport now d)) = ["Gluten"]).
Proof.
  intros now d. split.
  - destruct (analyzeDish_Selects now d) as (v & H & _). now exists v.
  - intros H. split; [now apply analyzeDish_default | reflexivity].
Qed.

Lemma analyzeDish_total_witness :
  (exists v, analyzeDish clock0 "qwerty" = Resolved v) /\
  analyzeDish clock0 "qwerty" = Resolved (Own (defaultReport clock0 "qwerty")) /\
  map name (allergens (defaultReport clock0 "qwerty")) = ["Gluten"].
Proof.
  split.
  - apply (proj1 (analyzeDish_total clock0 "qwerty")).
  - apply (proj2 (analyzeDish_total clock0 "qwerty")). reflexivity.
Defined.

(* ===================================================================== *)
(** ** Determinism up to the scan time *)
(* ===================================================================== *)

(** C8, counterexample.  Two runs on the same dish name at different times
    return reports with different scan times. *)
Lemma scan_time_differs_counterexample :
  exists r1 r2,
    analyzeDish (fun _ => "2024-01-01T00:00:00.000Z") "burger"
    = Resolved (Own r1) /\
    analyzeDish (fun _ => "2024-01-01T00:00:05.000Z") "burger"
    = Resolved (Own r2) /\
    scanTime r1 = Some "2024-01-01T00:00:00.000Z" /\
    scanTime r2 = Some "2024-01-01T00:00:05.000Z" /\
    r1 <> r2.
Proof.
  do 2 eexists. repeat split; try reflexivity. discriminate.
Qed.

(** C8, as the code has it.  Two runs of [analyzeDish] on the same dish name
    return results that are identical in every field except [scanTime],
    the order of allergens and recommendations included; [scanTime] is the
    clock reading of the run, so the results are identical when the clock
    readings of the two runs are. *)
Theorem analyzeDish_deterministic_up_to_scanTime :
  forall now1 now2 d,
    settledWithoutScanTime (analyzeDish now1 d)
    = settledWithoutScanTime (analyzeDish now2 d)
    /\ ((forall i, now1 i = now2 i) -> analyzeDish now1 d = analyzeDish now2 d).
Proof.
  intros now1 now2 d. rewrite !analyzeDish_eq.
  destruct (String.eqb _ "pad thai");
    [|destruct (String.eqb _ "burger");
      [|destruct (existsb _ Object_prototype_keys)]];
    (split; [reflexivity | intros H]); try reflexivity;
    cbv [padThai burger defaultReport]; now rewrite H.
Qed.

Lemma analyzeDish_deterministic_up_to_scanTime_witness :
  settledWithoutScanTime (analyzeDish clock0 "Burger")
  = settledWithoutScanTime (analyzeDish (fun _ => "2031-05-06T07:08:09.000Z") "Burger")
  /\ analyzeDish clock0 "Burger"
     = analyzeDish (fun _ => "2024-01-01T00:00:00.000Z") "Burger".
Proof.
  split.
  - apply (proj1 (analyzeDish_deterministic_up_to_scanTime
                    clock0 (fun _ => "2031-05-06T07:08:09.000Z") "Burger")).
  - apply (proj2 (analyzeDish_deterministic_up_to_scanTime
                    clock0 (fun _ => "2024-01-01T00:00:00.000Z") "Burger")).
    reflexivity.
Defined.

(* ===================================================================== *)
(** ** The raw dish name *)
(* ===================================================================== *)

(** C9, the failing input.  The table of mock reports has no entry for
    "constructor" (nor for "__proto__"), yet [analyzeDish] does not return
    the default report carrying that raw name: the lookup finds the
    property inherited from [Object.prototype], and the call settles to
    that object, which is no report and has no [dishName]. *)
Theorem constructor_is_not_given_the_default_report :
  forall now,
    own (mockData now) (normalizedName "constructor") = None /\
    own (mockData now) (normalizedName "__proto__") = None /\
    analyzeDish now "constructor" = Resolved (Inherited "constructor") /\
    analyzeDish now "__proto__" = Resolved (Inherited "__proto__") /\
    (forall r, analyzeDish now "constructor" = Resolved (Own r) -> False) /\
    (forall r, analyzeDish now "__proto__" = Resolved (Own r) -> False).
Proof.
  intros now. repeat (split; [reflexivity|]).
  split; intros r H; discriminate H.
Qed.

(** The raw dish name on the other inputs.  The normalized name
    (lower-cased and trimmed) is only the key of the lookup: when the lookup of that key finds
    nothing, neither an entry of the table nor an inherited property, the
    report returned carries the raw dish name, unchanged, as its
    [dishName]. *)
Theorem raw_dishName_preserved :
  forall now d,
    get (mockData now) (normalizedName d) = None ->
    exists r, analyzeDish now d = Resolved (Own r) /\ dishName r = d.
Proof.
  intros now d H. exists (defaultReport now d).
  split; [now apply analyzeDish_default | reflexivity].
Qed.

Lemma raw_dishName_preserved_witness :
  normalizedName "  Miso SOUP " = "miso soup" /\
  exists r,
    analyzeDish clock0 "  Miso SOUP " = Resolved (Own r) /\
    dishName r = "  Miso SOUP ".
Proof.
  split; [reflexivity|].
  apply (raw_dishName_preserved clock0 "  Miso SOUP "). reflexivity.
Defined.

(* ===================================================================== *)
(** ** The result page on a missing report *)
(* ===================================================================== *)

(** Reading a property of [null] throws. *)
Lemma field_of_null_throws {A} (f : DishReport -> A) :
  View.field None f = View.Throw "TypeError: Cannot read properties of null".
Proof. reflexivity. Qed.

(** C10.  For every report argument, [null] included, [ResultPage] returns
    a rendered view and throws nothing; on [null] it returns the fallback
    view with the text 'No scan data available', so no property of the
    [null] report is read. *)
Theorem ResultPage_null_safe :
  forall toLocaleString,
    ResultPage.ResultPage toLocaleString None = View.Ok ResultPage.noScanData /\
    In "No scan data available" (View.texts ResultPage.noScanData) /\
    forall report,
      exists v, ResultPage.ResultPage toLocaleString report = View.Ok v.
Proof.
  intros toLocaleString. split; [reflexivity|]. split.
  - simpl. tauto.
  - intros [r|]; eexists; reflexivity.
Qed.

(** On a report the page is the result view; it shows the dish name and the
    risk level of the report. *)
Lemma ResultPage_shows_report (toLocaleString : string -> string) (r : DishReport) :
  exists v,
    ResultPage.ResultPage toLocaleString (Some r) = View.Ok v /\
    In (dishName r) (View.texts v) /\
    In (ResultPage.riskText (riskLevel r)) (View.texts v).
Proof.
  eexists. split; [reflexivity|].
  cbn [View.texts View.el View.icon flat_map app ResultPage.header
       ResultPage.dishInfo].
  split.
  - do 4 right. now left.
  - do 5 right. rewrite !in_app_iff. do 3 left. right. simpl. auto.
Qed.

(* ===================================================================== *)
(** ** More facts about the string methods *)
(* ===================================================================== *)

Section NormalizationFacts.

Lemma toLowerCase_app (s t : string) :
  toLowerCase (s ++ t) = toLowerCase s ++ toLowerCase t.
Proof. induction s as [|c s IH]; simpl; [reflexivity | now rewrite IH]. Qed.

Lemma toLowerCase_length (s : string) :
  String.length (toLowerCase s) = String.length s.
Proof. induction s as [|c s IH]; simpl; [reflexivity | now rewrite IH]. Qed.

Lemma lower_char_space (c : ascii) : is_space c = true -> lower_char c = c.
Proof.
  destruct c as [b0 b1 b2 b3 b4 b5 b6 b7].
  destruct b0, b1, b2, b3, b4, b5, b6, b7; (discriminate || reflexivity).
Qed.

Lemma is_space_lower_char (c : ascii) : is_space (lower_char c) = is_space c.
Proof.
  destruct c as [b0 b1 b2 b3 b4 b5 b6 b7].
  destruct b0, b1, b2, b3, b4, b5, b6, b7; reflexivity.
Qed.

Lemma toLowerCase_blank (ws : string) : blank ws = true -> toLowerCase ws = ws.
Proof.
  induction ws as [|c ws IH]; simpl; [reflexivity|].
  intros H. apply andb_true_iff in H as [Hc Hws].
  now rewrite lower_char_space, IH.
Qed.

Lemma toLowerCase_toUpperCase (s : string) :
  toLowerCase (toUpperCase s) = toLowerCase s.
Proof.
  induction s as [|c s IH]; simpl; [reflexivity|].
  now rewrite lower_upper_char, IH.
Qed.

Lemma trimStart_blank (ws : string) : blank ws = true -> trimStart ws = "".
Proof.
  induction ws as [|c ws IH]; simpl; [reflexivity|].
  intros H. apply andb_true_iff in H as [-> Hws]. auto.
Qed.

Lemma trimEnd_blank (ws : string) : blank ws = true -> trimEnd ws = "".
Proof.
  induction ws as [|c ws IH]; simpl; [reflexivity|].
  intros H. apply andb_true_iff in H as [Hc Hws].
  now rewrite IH, Hc.
Qed.

Lemma trimStart_blank_app (ws s : string) :
  blank ws = true -> trimStart (ws ++ s) = trimStart s.
Proof.
  induction ws as [|c ws IH]; simpl; [reflexivity|].
  intros H. apply andb_true_iff in H as [-> Hws]. auto.
Qed.

Lemma trimEnd_app_blank (s ws : string) :
  blank ws = true -> trimEnd (s ++ ws) = trimEnd s.
Proof.
  intros H. induction s as [|c s IH]; simpl.
  - now apply trimEnd_blank.
  - now rewrite IH.
Qed.

Lemma trim_app_blank (s ws : string) :
  blank ws = true -> trim (s ++ ws) = trim s.
Proof.
  intros H. unfold trim. induction s as [|c s IH]; simpl.
  - now rewrite trimStart_blank.
  - destruct (is_space c); [assumption|].
    now apply (trimEnd_app_blank (String c s)).
Qed.

(** White space around a string does not change what [trim] returns. *)
Lemma trim_padding (ws1 s ws2 : string) :
  blank ws1 = true -> blank ws2 = true -> trim (ws1 ++ s ++ ws2) = trim s.
Proof.
  intros H1 H2. unfold trim at 1. rewrite trimStart_blank_app by assumption.
  now apply trim_app_blank.
Qed.

Lemma trimEnd_idem (s : string) : trimEnd (trimEnd s) = trimEnd s.
Proof.
  induction s as [|c s IH]; simpl; [reflexivity|].
  destruct (trimEnd s) as [|c' t] eqn:E.
  - destruct (is_space c) eqn:Hc; simpl; [reflexivity | now rewrite Hc].
  - cbn [trimEnd] in *. now rewrite IH.
Qed.

(** What [trimStart] returns is empty or starts with a character that is
    not white space, and [trimEnd] keeps that first character. *)
Lemma trimStart_head (s : string) :
  trimStart s = "" \/
  exists c t, trimStart s = String c t /\ is_space c = false.
Proof.
  induction s as [|c s IH]; simpl; [now left|].
  destruct (is_space c) eqn:Hc; [assumption|].
  right. now exists c, s.
Qed.

Lemma trimStart_trimEnd_head (c : ascii) (t : string) :
  is_space c = false -> trimStart (trimEnd (String c t)) = trimEnd (String c t).
Proof.
  intros Hc. cbn [trimEnd].
  destruct (trimEnd t); rewrite ?Hc; cbn [trimStart]; now rewrite Hc.
Qed.

Lemma trim_idem (s : string) : trim (trim s) = trim s.
Proof.
  unfold trim. destruct (trimStart_head s) as [-> | (c & t & -> & Hc)].
  - reflexivity.
  - rewrite trimStart_trimEnd_head by assumption. apply trimEnd_idem.
Qed.

(** Lower-casing and trimming commute. *)
Lemma trimStart_toLowerCase (s : string) :
  trimStart (toLowerCase s) = toLowerCase (trimStart s).
Proof.
  induction s as [|c s IH]; simpl; [reflexivity|].
  rewrite is_space_lower_char. now destruct (is_space c).
Qed.

Lemma trimEnd_toLowerCase (s : string) :
  trimEnd (toLowerCase s) = toLowerCase (trimEnd s).
Proof.
  induction s as [|c s IH]; simpl; [reflexivity|].
  rewrite IH, is_space_lower_char.
  destruct (trimEnd s); simpl; [now destruct (is_space c) | reflexivity].
Qed.

Lemma normalizedName_idem (d : string) :
  normalizedName (normalizedName d) = normalizedName d.
Proof.
  unfold normalizedName at 1. rewrite toLowerCase_normalizedName.
  unfold normalizedName. apply trim_idem.
Qed.

Lemma normalizedName_padding (ws1 d d' ws2 : string) :
  blank ws1 = true -> blank ws2 = true ->
  toLowerCase d' = toLowerCase d ->
  normalizedName (ws1 ++ d' ++ ws2) = normalizedName d.
Proof.
  intros H1 H2 E. unfold normalizedName.
  rewrite !toLowerCase_app, E.
  rewrite (toLowerCase_blank ws1), (toLowerCase_blank ws2) by assumption.
  now apply trim_padding.
Qed.

End NormalizationFacts.

(* ===================================================================== *)
(** ** The lookup key of the simulated analysis *)
(* ===================================================================== *)

(** X1.  The entry [analyzeDish] selects does not depend on the letter case
    of the dish name nor on white space around it: a name that differs from
    [d] only in letter case, with any white space before and after, settles
    to what the lookup of the normalized [d] finds, and to the default
    report, which carries the text as typed, when it finds nothing. *)
Theorem analyzeDish_ignores_case_and_padding :
  forall now ws1 d d' ws2,
    blank ws1 = true -> blank ws2 = true ->
    toLowerCase d' = toLowerCase d ->
    analyzeDish now (ws1 ++ d' ++ ws2)
    = Resolved (or_else (get (mockData now) (normalizedName d))
                        (Own (defaultReport now (ws1 ++ d' ++ ws2)))).
Proof.
  intros now ws1 d d' ws2 H1 H2 E. unfold analyzeDish.
  now rewrite (normalizedName_padding ws1 d d' ws2).
Qed.

Lemma analyzeDish_ignores_case_and_padding_witness :
  analyzeDish clock0 ("  " ++ "PaD tHAI" ++ "   ")
  = Resolved (or_else (get (mockData clock0) (normalizedName "pad thai"))
                      (Own (defaultReport clock0 ("  " ++ "PaD tHAI" ++ "   ")))).
Proof.
  apply (analyzeDish_ignores_case_and_padding clock0 "  " "pad thai" "PaD tHAI" "   ");
    reflexivity.
Defined.

(** X2.  The lookup key is in canonical form: it has no upper-case letter
    and no white space at either end, and normalizing it again returns it
    unchanged. *)
Theorem normalizedName_canonical :
  forall d,
    toLowerCase (normalizedName d) = normalizedName d /\
    trim (normalizedName d) = normalizedName d /\
    normalizedName (normalizedName d) = normalizedName d.
Proof.
  intros d. split; [apply toLowerCase_normalizedName|]. split.
  - unfold normalizedName. apply trim_idem.
  - apply normalizedName_idem.
Qed.

(** X3.  In every report [analyzeDish] returns, the stored nut-free flag is
    the one [analyzeDishFromBackend] would derive from the report's
    allergens: it is true exactly when no allergen name contains "nut". *)
Theorem analyzeDish_isNutFree_as_backend_rule :
  forall now d r,
    analyzeDish now d = Resolved (Own r) ->
    isNutFree r = nutFree (allergens r).
Proof.
  intros now d r H.
  apply analyzeDish_Own_inv in H as [(_ & ->) | [(_ & ->) | (_ & ->)]];
    reflexivity.
Qed.

Lemma analyzeDish_isNutFree_as_backend_rule_witness :
  isNutFree (padThai clock0) = nutFree (allergens (padThai clock0)).
Proof.
  apply (analyzeDish_isNutFree_as_backend_rule clock0 "Pad Thai"). reflexivity.
Defined.

(* ===================================================================== *)
(** ** More on the backend transform *)
(* ===================================================================== *)

Lemma string_app_assoc (a b c : string) : (a ++ b) ++ c = a ++ b ++ c.
Proof. induction a as [|x a IH]; simpl; [reflexivity | now rewrite IH]. Qed.

Lemma Substring_trans (a b s : string) :
  Substring a b -> Substring b s -> Substring a s.
Proof.
  intros (p1 & q1 & ->) (p2 & q2 & ->).
  exists (p2 ++ p1), (q1 ++ q2). now rewrite !string_app_assoc.
Qed.

Lemma nutFree_app (l1 l2 : list Allergen) :
  nutFree (l1 ++ l2) = nutFree l1 && nutFree l2.
Proof. unfold nutFree. apply forallb_app. Qed.

(** X4.  Detecting more never makes a dish nut-free: when every name
    detected in one response is also detected in another, and the report of
    the larger response is nut-free, so is the report of the smaller one;
    the order and the repetitions of the detected names do not matter. *)
Theorem isNutFree_antimonotone :
  forall now d1 d2,
    incl (Scan.allergens_detected d1) (Scan.allergens_detected d2) ->
    isNutFree (toDishReport now d2) = true ->
    isNutFree (toDishReport now d1) = true.
Proof.
  intros now d1 d2 Hincl H2.
  rewrite isNutFree_toDishReport in *. intros n Hn. apply H2, Hincl, Hn.
Qed.

Lemma isNutFree_antimonotone_witness :
  isNutFree (toDishReport clock0 (scanOf ["milk"; "milk"] LOW)) = true.
Proof.
  apply (isNutFree_antimonotone clock0
           (scanOf ["milk"; "milk"] LOW) (scanOf ["eggs"; "milk"] HIGH)).
  - intros n [<- | [<- | []]]; simpl; auto.
  - reflexivity.
Defined.



Lemma upper_char_idem (c : ascii) : upper_char (upper_char c) = upper_char c.
Proof.
  destruct c as [b0 b1 b2 b3 b4 b5 b6 b7].
  destruct b0, b1, b2, b3, b4, b5, b6, b7; reflexivity.
Qed.

(** X6.  For a detected name of ASCII characters, the allergen built for
    it keeps the name but for the case of its first character: the
    capitalized name has the same length, the same characters after the
    first and the same lower-cased form, and capitalizing it again changes
    nothing; an empty name stays empty.  The description quotes the name as
    detected, not capitalized. *)
Theorem toAllergen_keeps_name :
  forall nm,
    ascii_only nm = true ->
    String.length (name (toAllergen nm)) = String.length nm /\
    slice1 (name (toAllergen nm)) = slice1 nm /\
    toLowerCase (name (toAllergen nm)) = toLowerCase nm /\
    capitalize (name (toAllergen nm)) = name (toAllergen nm) /\
    (name (toAllergen nm) = "" <-> nm = "") /\
    description (toAllergen nm) = Some ("Contains " ++ nm).
Proof.
  intros nm _. cbn [toAllergen name description].
  split; [|split; [|split; [apply toLowerCase_capitalize|split; [|split]]]].
  - now destruct nm.
  - now destruct nm.
  - destruct nm as [|c nm]; [reflexivity|].
    unfold capitalize; simpl. now rewrite upper_char_idem.
  - destruct nm; simpl; split; (reflexivity || discriminate).
  - reflexivity.
Qed.

Lemma toAllergen_keeps_name_witness :
  String.length (name (toAllergen "tree nuts")) = String.length "tree nuts" /\
  slice1 (name (toAllergen "tree nuts")) = slice1 "tree nuts" /\
  toLowerCase (name (toAllergen "tree nuts")) = toLowerCase "tree nuts" /\
  capitalize (name (toAllergen "tree nuts")) = name (toAllergen "tree nuts") /\
  (name (toAllergen "tree nuts") = "" <-> "tree nuts" = "") /\
  description (toAllergen "tree nuts") = Some ("Contains " ++ "tree nuts").
Proof. apply (toAllergen_keeps_name "tree nuts"). reflexivity. Defined.

(* ===================================================================== *)
(** ** The icon of an allergen badge *)
(* ===================================================================== *)

Lemma includes_trans (s a b : string) :
  Substring a b -> includes s b = true -> includes s a = true.
Proof.
  rewrite !includes_Substring. intros Hab Hbs. exact (Substring_trans a b s Hab Hbs).
Qed.

Lemma includes_peanut_nut (s : string) :
  includes s "peanut" = true -> includes s "nut" = true.
Proof. apply includes_trans. now exists "pea", "". Qed.

Lemma includes_shellfish_fish (s : string) :
  includes s "shellfish" = true -> includes s "fish" = true.
Proof. apply includes_trans. now exists "shell", "". Qed.

(** X7.  The icon is chosen by the first keyword, in the order nut,
    dairy or milk, gluten or wheat, fish, egg, soy, that the lower-cased
    name contains, and is 'warning' when it contains none; the tests for
    'peanut' and 'shellfish' never decide, as such a name contains 'nut',
    respectively 'fish'. *)
Theorem getIcon_first_keyword :
  forall nm,
    AllergenBadge.getIcon nm
    = if includes (toLowerCase nm) "nut" then "eco"
      else if includes (toLowerCase nm) "dairy"
              || includes (toLowerCase nm) "milk" then "water_drop"
      else if includes (toLowerCase nm) "gluten"
              || includes (toLowerCase nm) "wheat" then "grain"
      else if includes (toLowerCase nm) "fish" then "set_meal"
      else if includes (toLowerCase nm) "egg" then "egg"
      else if includes (toLowerCase nm) "soy" then "nature"
      else "warning".
Proof.
  intros nm. unfold AllergenBadge.getIcon.
  pose proof (includes_peanut_nut (toLowerCase nm)) as Hn.
  pose proof (includes_shellfish_fish (toLowerCase nm)) as Hf.
  destruct (includes (toLowerCase nm) "nut"); [reflexivity|].
  destruct (includes (toLowerCase nm) "peanut"); [now specialize (Hn eq_refl)|].
  cbn [orb].
  destruct (includes (toLowerCase nm) "dairy" || includes (toLowerCase nm) "milk");
    [reflexivity|].
  destruct (includes (toLowerCase nm) "gluten" || includes (toLowerCase nm) "wheat");
    [reflexivity|].
  destruct (includes (toLowerCase nm) "fish").
  - now rewrite orb_true_r.
  - destruct (includes (toLowerCase nm) "shellfish");
      [now specialize (Hf eq_refl) | reflexivity].
Qed.

(** X8.  For a name of ASCII characters the icon does not depend on the
    letter case: the name in upper case, in lower case and capitalized as
    [analyzeDishFromBackend] does all get the icon of the name itself. *)
Theorem getIcon_ignores_case :
  forall nm,
    ascii_only nm = true ->
    AllergenBadge.getIcon (toUpperCase nm) = AllergenBadge.getIcon nm /\
    AllergenBadge.getIcon (toLowerCase nm) = AllergenBadge.getIcon nm /\
    AllergenBadge.getIcon (name (toAllergen nm)) = AllergenBadge.getIcon nm.
Proof.
  intros nm _. unfold AllergenBadge.getIcon. cbn [toAllergen name].
  now rewrite toLowerCase_toUpperCase, toLowerCase_idem, toLowerCase_capitalize.
Qed.

Lemma getIcon_ignores_case_witness :
  AllergenBadge.getIcon (toUpperCase "Soy sauce") = AllergenBadge.getIcon "Soy sauce" /\
  AllergenBadge.getIcon (toLowerCase "Soy sauce") = AllergenBadge.getIcon "Soy sauce" /\
  AllergenBadge.getIcon (name (toAllergen "Soy sauce"))
  = AllergenBadge.getIcon "Soy sauce".
Proof. apply (getIcon_ignores_case "Soy sauce"). reflexivity. Defined.

Lemma getIcon_eco_iff (nm : string) :
  AllergenBadge.getIcon nm = "eco" <-> includes (toLowerCase nm) "nut" = true.
Proof.
  unfold AllergenBadge.getIcon.
  pose proof (includes_peanut_nut (toLowerCase nm)) as Hn.
  destruct (includes (toLowerCase nm) "nut"); [tauto|].
  destruct (includes (toLowerCase nm) "peanut"); [now specialize (Hn eq_refl)|].
  cbn [orb].
  repeat match goal with
         | |- context [if ?b then _ else _] => destruct b
         end; split; discriminate.
Qed.

Lemma nutFree_iff_no_eco (al : list Allergen) :
  nutFree al = true <->
  forall a, In a al -> AllergenBadge.getIcon (name a) <> "eco".
Proof.
  unfold nutFree. rewrite forallb_forall.
  split; intros H a Ha; specialize (H a Ha).
  - rewrite getIcon_eco_iff. now destruct (includes _ _).
  - rewrite getIcon_eco_iff in H. now destruct (includes _ _).
Qed.

(** X9.  The nut-free flag and the badges agree: in every report that
    [analyzeDishFromBackend] builds and in every report that [analyzeDish]
    returns, the flag is true exactly when no allergen of the report gets
    the nut icon 'eco' on its badge. *)
Theorem isNutFree_iff_no_nut_icon :
  (forall now d,
      isNutFree (toDishReport now d) = true <->
      forall a, In a (allergens (toDishReport now d)) ->
                AllergenBadge.getIcon (name a) <> "eco")
  /\ (forall now d r,
         analyzeDish now d = Resolved (Own r) ->
         (isNutFree r = true <->
          forall a, In a (allergens r) ->
                    AllergenBadge.getIcon (name a) <> "eco")).
Proof.
  split.
  - intros now d. apply nutFree_iff_no_eco.
  - intros now d r H.
    assert (isNutFree r = nutFree (allergens r)) as ->
      by (apply analyzeDish_Own_inv in H as [(_ & ->) | [(_ & ->) | (_ & ->)]];
          reflexivity).
    apply nutFree_iff_no_eco.
Qed.

(* ===================================================================== *)
(** ** The sections of the result page *)
(* ===================================================================== *)

Section PageFacts.

Import View Query.

Lemma textsOfTag_map_nil {A} (tag : string) (f : A -> Element) (l : list A) :
  (forall a, textsOfTag tag (f a) = []) ->
  flat_map (textsOfTag tag) (map f l) = [].
Proof.
  intros H. induction l as [|a l IH]; simpl; [reflexivity|].
  now rewrite H, IH.
Qed.

Lemma h3_allergenRow (a : Allergen) :
  textsOfTag "h3" (ResultPage.allergenRow a) = [].
Proof.
  unfold ResultPage.allergenRow. now destruct (truthy_string (description a)).
Qed.

Lemma h3_allergenAlerts (al : list Allergen) :
  textsOfTag "h3" (ResultPage.allergenAlerts al)
  = [if (0 <? List.length al)%nat then "Allergen Warning" else "All Clear!"].
Proof.
  unfold ResultPage.allergenAlerts.
  destruct (0 <? List.length al)%nat; [|reflexivity].
  cbn -[ResultPage.allergenRow ResultPage.natText].
  now rewrite textsOfTag_map_nil by apply h3_allergenRow.
Qed.

Lemma h3_chipList (title ic chipClass : string) (items : list string) :
  textsOfTag "h3" (ResultPage.chipList title ic chipClass items) = [ic; title].
Proof.
  unfold ResultPage.chipList. cbn.
  now rewrite textsOfTag_map_nil by reflexivity.
Qed.

Lemma h3_dishInfo dishName_ restaurant_ risk veg vgn glu dai nut :
  textsOfTag "h3"
    (ResultPage.dishInfo dishName_ restaurant_ risk veg vgn glu dai nut) = [].
Proof.
  unfold ResultPage.dishInfo. now destruct (truthy_string restaurant_).
Qed.

Lemma h3_safeSection (safe : list string) :
  flat_map (textsOfTag "h3") (ResultPage.safeSection safe)
  = if (0 <? List.length safe)%nat then ["verified"; "Safe (Not Detected)"]
    else [].
Proof.
  unfold ResultPage.safeSection.
  destruct (0 <? List.length safe)%nat; [|reflexivity].
  cbn [when flat_map]. now rewrite h3_chipList.
Qed.

Lemma h3_recommendationsSection (recs : option (list string)) :
  flat_map (textsOfTag "h3") (ResultPage.recommendationsSection recs)
  = if truthy recs && (0 <? List.length (array_or_empty recs))%nat
    then ["lightbulb"; "Recommendations"] else [].
Proof.
  unfold ResultPage.recommendationsSection.
  destruct (truthy recs && _); [|reflexivity].
  cbn. now rewrite textsOfTag_map_nil by reflexivity.
Qed.

Lemma h3_scanTimeSection (tl : string -> string) (t : option string) :
  flat_map (textsOfTag "h3") (ResultPage.scanTimeSection tl t) = [].
Proof.
  unfold ResultPage.scanTimeSection. now destruct (truthy_string t).
Qed.

(** The view of a report. *)
Lemma ResultPage_on_report (tl : string -> string) (r : DishReport) :
  ResultPage.ResultPage tl (Some r)
  = Ok (el "div" "min-h-screen bg-background-dark pb-24"
          [ ResultPage.header;
            el "main" "px-6 py-8 space-y-6"
              ([ ResultPage.dishInfo (dishName r) (restaurant r) (riskLevel r)
                   (isVegetarian r) (isVegan r) (isGlutenFree r)
                   (isDairyFree r) (isNutFree r);
                 ResultPage.allergenAlerts (allergens r) ]
                 ++ ResultPage.safeSection (safeAllergens r)
                 ++ [ResultPage.ingredientsSection (ingredients r)]
                 ++ ResultPage.recommendationsSection (recommendations r)
                 ++ ResultPage.scanTimeSection tl (scanTime r));
            ResultPage.actions ]).
Proof. reflexivity. Qed.

End PageFacts.

(** X10.  The result page of a report has these headed sections, in this
    order: the allergen block, headed 'Allergen Warning' when the report
    lists an allergen and 'All Clear!' when it lists none; 'Safe (Not
    Detected)' only when the safe list is not empty; 'Ingredients' always;
    'Recommendations' only when recommendations are present and not
    empty. *)
Theorem ResultPage_sections :
  forall toLocaleString r,
    exists v,
      ResultPage.ResultPage toLocaleString (Some r) = View.Ok v /\
      Query.textsOfTag "h3" v
      = ([if (0 <? List.length (allergens r))%nat
          then "Allergen Warning" else "All Clear!"]
           ++ (if (0 <? List.length (safeAllergens r))%nat
               then ["verified"; "Safe (Not Detected)"] else [])
           ++ ["restaurant"; "Ingredients"]
           ++ (if View.truthy (recommendations r)
                  && (0 <? List.length (View.array_or_empty (recommendations r)))%nat
               then ["lightbulb"; "Recommendations"] else []))%list.
Proof.
  intros tl r. eexists. split; [apply ResultPage_on_report|].
  cbn [Query.textsOfTag View.el String.eqb Ascii.eqb Bool.eqb flat_map app].
  change (Query.textsOfTag "h3" ResultPage.header) with (@nil string).
  change (Query.textsOfTag "h3" ResultPage.actions) with (@nil string).
  rewrite ?flat_map_app. cbn [flat_map]. rewrite ?flat_map_app.
  rewrite h3_dishInfo, h3_allergenAlerts, h3_safeSection,
    h3_recommendationsSection, h3_scanTimeSection.
  unfold ResultPage.ingredientsSection. rewrite h3_chipList.
  cbn [app]. now rewrite !app_nil_r.
Qed.

Lemma texts_backend_rows (names : list string) :
  flat_map View.texts (map ResultPage.allergenRow (map toAllergen names))
  = flat_map
      (fun n => [ AllergenBadge.getIcon (capitalize n); capitalize n;
                  "Contains " ++ n ])
      names.
Proof.
  induction names as [|n names IH]; [reflexivity|].
  cbn [map flat_map]. rewrite IH. f_equal.
Qed.

(** X11.  What the result page shows for a backend response: with no
    detected name the allergen block reads 'All Clear!'; otherwise it reads
    'Allergen Warning', the number of detected names (repetitions counted),
    and then, for each detected name in the order of the response, the icon
    of the capitalized name, the capitalized name and 'Contains' followed
    by the name as detected. *)
Theorem backend_allergen_block :
  forall now d,
    View.texts (ResultPage.allergenAlerts (allergens (toDishReport now d)))
    = match Scan.allergens_detected d with
      | [] => ["check_circle"; "All Clear!"; "No major allergens detected"]
      | _ :: _ =>
          ([ "warning"; "Allergen Warning"; "Contains ";
             ResultPage.natText (List.length (Scan.allergens_detected d));
             " allergen(s)" ]
             ++ flat_map
                  (fun n => [ AllergenBadge.getIcon (capitalize n); capitalize n;
                              ("Contains " ++ n)%string ])
                  (Scan.allergens_detected d))%list
      end.
Proof.
  intros now d. cbn [toDishReport allergens].
  destruct (Scan.allergens_detected d) as [|n names] eqn:E; [reflexivity|].
  rewrite <- texts_backend_rows.
  unfold ResultPage.allergenAlerts.
  rewrite length_map. cbn [List.length Nat.ltb Nat.leb].
  cbn -[ResultPage.allergenRow ResultPage.natText toAllergen List.length].
  now rewrite ?app_nil_r.
Qed.

(* ===================================================================== *)
(** ** The result page on what the analysis settles to *)
(* ===================================================================== *)

(** On a report and on [null] the component of [ResultPageAny] is the one
    of [ResultPage]. *)
Lemma ResultPageAny_on_report (tl : string -> string) (r : DishReport) :
  ResultPageAny.ResultPage tl (Some (Own r))
  = ResultPage.ResultPage tl (Some r).
Proof. reflexivity. Qed.

Lemma ResultPageAny_on_null (tl : string -> string) :
  ResultPageAny.ResultPage tl None = ResultPage.ResultPage tl None.
Proof. reflexivity. Qed.

Lemma ResultPageAny_on_inherited (tl : string -> string) (k : string) :
  ResultPageAny.ResultPage tl (Some (Inherited k))
  = View.Throw "TypeError: Cannot read properties of undefined (reading 'length')".
Proof. reflexivity. Qed.

(** X12.  Scanning a dish name and showing the result: the result page
    renders the view of the report [analyzeDish] returned, except when the
    normalized name is 'constructor' or '__proto__'; then the value is an
    object inherited from [Object.prototype], and rendering throws a
    TypeError on [report.allergens.length]. *)
Theorem scanned_result_renders_or_throws :
  forall toLocaleString now d v,
    analyzeDish now d = Resolved v ->
    ((exists e, ResultPageAny.ResultPage toLocaleString (Some v) = View.Throw e)
     <-> normalizedName d = "constructor" \/ normalizedName d = "__proto__")
    /\ (forall r,
           v = Own r ->
           ResultPageAny.ResultPage toLocaleString (Some v)
           = ResultPage.ResultPage toLocaleString (Some r)).
Proof.
  intros tl now d v H.
  split; [|intros r ->; apply ResultPageAny_on_report].
  destruct (analyzeDish_Selects now d) as (v' & H' & S).
  rewrite H in H'. injection H' as <-.
  inversion S as [E|E|Hin|Hnone]; subst.
  - split; [intros (e & He); discriminate He|].
    rewrite E. intros [X|X]; discriminate X.
  - split; [intros (e & He); discriminate He|].
    rewrite E. intros [X|X]; discriminate X.
  - split; [intros _; now apply inherited_key_reachable|].
    intros _. eexists. apply ResultPageAny_on_inherited.
  - split; [intros (e & He); discriminate He|].
    apply get_mockData_None in Hnone as (_ & _ & Hk).
    intros [X|X]; rewrite X in Hk; elim Hk; simpl; tauto.
Qed.

Lemma scanned_result_renders_or_throws_witness :
  (exists e,
      ResultPageAny.ResultPage (fun s => s) (Some (Inherited "constructor"))
      = View.Throw e)
  <-> normalizedName " Constructor" = "constructor"
      \/ normalizedName " Constructor" = "__proto__".
Proof.
  apply (proj1 (scanned_result_renders_or_throws
                  (fun s => s) clock0 " Constructor" (Inherited "constructor")
                  eq_refl)).
Defined.

(* ===================================================================== *)
(** ** Navigation *)
(* ===================================================================== *)

Section AppFacts.

Variable R : Type.

Lemma run_app (st : App.State R) (a b : list (App.Callback R)) :
  App.run R st (a ++ b)
  = match App.run R st a with
    | Some st' => App.run R st' b
    | None => None
    end.
Proof.
  revert st. induction a as [|cb a IH]; intros st; simpl; [reflexivity|].
  destruct (App.call R st cb); [apply IH | reflexivity].
Qed.

(** The result page is entered by [showResult] only. *)
Lemma call_RESULT (st st' : App.State R) (cb : App.Callback R) :
  App.call R st cb = Some st' ->
  App.currentPage st' = App.RESULT ->
  exists r, cb = App.OnResult r /\ App.currentDish st' = Some r.
Proof.
  destruct st as [p dish]. unfold App.call; simpl.
  destruct p, cb; intros H; try discriminate H;
    injection H as <-; simpl; intros E; try discriminate E;
    now exists report.
Qed.

(** Every callback but [onResult] leaves the dish as it is. *)
Lemma call_keeps_dish (st st' : App.State R) (cb : App.Callback R) :
  App.call R st cb = Some st' ->
  (forall r, cb <> App.OnResult r) ->
  App.currentDish st' = App.currentDish st.
Proof.
  destruct st as [p dish]. unfold App.call; simpl.
  destruct p, cb; intros H N; try discriminate H;
    injection H as <-; try reflexivity;
    now elim (N report).
Qed.

(** A dish, once set, is never cleared. *)
Lemma call_dish_stays (st st' : App.State R) (cb : App.Callback R) :
  App.call R st cb = Some st' ->
  App.currentDish st <> None -> App.currentDish st' <> None.
Proof.
  destruct st as [p dish]. unfold App.call; simpl.
  destruct p, cb; intros H N; try discriminate H;
    injection H as <-; simpl; (assumption || discriminate).
Qed.

End AppFacts.

(** X13.  Whenever the app shows the result page, the last thing that
    happened is a scan delivering a report, and the page is given that
    report: the result page never shows the report of an earlier scan. *)
Theorem App_result_page_shows_last_scan :
  forall (R : Type) (cbs : list (App.Callback R)) (st : App.State R),
    App.run R (App.initial R) cbs = Some st ->
    App.currentPage st = App.RESULT ->
    exists cbs' r,
      cbs = (cbs' ++ [App.OnResult r])%list /\
      App.renderPage R st = App.ResultPage (Some r).
Proof.
  intros R cbs st Hrun Hpage.
  destruct cbs as [|cb0 cbs0] using rev_ind.
  - injection Hrun as <-. discriminate Hpage.
  - clear IHcbs0. rewrite run_app in Hrun.
    destruct (App.run R (App.initial R) cbs0) as [st1|]; [|discriminate].
    simpl in Hrun. destruct (App.call R st1 cb0) as [st2|] eqn:C; [|discriminate].
    injection Hrun as ->.
    destruct (call_RESULT R st1 st cb0 C Hpage) as (r & -> & Hd).
    exists cbs0, r. split; [reflexivity|].
    unfold App.renderPage. now rewrite Hpage, Hd.
Qed.

Lemma App_result_page_shows_last_scan_witness :
  exists cbs' r,
    [App.OnStart; App.OnScan; App.OnResult 7] = (cbs' ++ [App.OnResult r])%list /\
    App.renderPage nat
      {| App.currentPage := App.RESULT; App.currentDish := Some 7 |}
    = App.ResultPage (Some r).
Proof.
  apply (App_result_page_shows_last_scan nat
           [App.OnStart; App.OnScan; App.OnResult 7]
           {| App.currentPage := App.RESULT; App.currentDish := Some 7 |});
    reflexivity.
Defined.

(** X14.  In no session does the app hand [null] to the result page: the
    'No scan data available' view of [ResultPage] is never what the app
    shows. *)
Theorem App_never_shows_null_result :
  forall (R : Type) (cbs : list (App.Callback R)) (st : App.State R)
         (report : option R),
    App.run R (App.initial R) cbs = Some st ->
    App.renderPage R st = App.ResultPage report ->
    exists r, report = Some r.
Proof.
  intros R cbs st report.
  assert (forall st0,
             (App.currentPage st0 = App.RESULT -> App.currentDish st0 <> None) ->
             App.run R st0 cbs = Some st ->
             App.currentPage st = App.RESULT -> App.currentDish st <> None)
    as Inv.
  { induction cbs as [|cb cbs IH]; intros st0 H0 Hr.
    - injection Hr as <-. exact H0.
    - simpl in Hr. destruct (App.call R st0 cb) as [st1|] eqn:C; [|discriminate].
      apply (IH st1); [|assumption].
      intros E. destruct (call_RESULT R st0 st1 cb C E) as (r & _ & ->).
      discriminate. }
  intros Hrun. specialize (Inv (App.initial R)).
  unfold App.renderPage.
  destruct (App.currentPage st) eqn:P; try discriminate.
  intros E. injection E as <-.
  destruct (App.currentDish st) as [r|] eqn:D; [now exists r|].
  exfalso. apply Inv; [discriminate | assumption | reflexivity | reflexivity].
Qed.

Lemma App_never_shows_null_result_witness :
  exists r, Some 7 = Some r.
Proof.
  apply (App_never_shows_null_result nat
           [App.OnStart; App.OnScan; App.OnResult 7]
           {| App.currentPage := App.RESULT; App.currentDish := Some 7 |});
    reflexivity.
Defined.

(** X15.  Navigation keeps the scanned dish: a session in which no scan
    delivers a report leaves [currentDish] as it was, so a dish that has
    been set stays set while the user moves between the pages. *)
Theorem App_navigation_keeps_dish :
  forall (R : Type) (cbs : list (App.Callback R)) (st st' : App.State R),
    App.run R st cbs = Some st' ->
    (forall r, ~ In (App.OnResult r) cbs) ->
    App.currentDish st' = App.currentDish st.
Proof.
  intros R cbs. induction cbs as [|cb cbs IH]; intros st st' Hrun Hno.
  - now injection Hrun as <-.
  - simpl in Hrun. destruct (App.call R st cb) as [st1|] eqn:C; [|discriminate].
    rewrite (IH st1 st' Hrun).
    + apply (call_keeps_dish R st st1 cb C).
      intros r ->. apply (Hno r). now left.
    + intros r Hin. apply (Hno r). now right.
Qed.

Lemma App_navigation_keeps_dish_witness :
  App.currentDish
    {| App.currentPage := App.DASHBOARD; App.currentDish := Some 3 |}
  = App.currentDish
      {| App.currentPage := App.RESULT; App.currentDish := Some 3 |}.
Proof.
  apply (App_navigation_keeps_dish nat [App.OnScanAgain; App.OnBack]).
  - reflexivity.
  - intros r [H | [H | []]]; discriminate H.
Defined.

(* ===================================================================== *)
(** ** The scan handlers *)
(* ===================================================================== *)


(** X17.  Scanning with [analyzeDish] never ends in the 'Analysis failed'
    alert: for every dish name, when [onResult] does not throw, [handleScan]
    turns the spinner on, delivers the value [analyzeDish] settles to, and
    turns the spinner off, and does nothing else. *)
Theorem handleScan_analyzeDish_never_fails :
  forall now (onResult : Property DishReport -> View.Exc unit) d,
    (forall v, onResult v = View.Ok tt) ->
    exists v,
      analyzeDish now d = Resolved v /\
      ScanPage.handleScan _ (analyzeDish now) onResult d
      = [ ScanPage.SetIsAnalyzing true; ScanPage.OnResult v;
          ScanPage.SetIsAnalyzing false ].
Proof.
  intros now onResult d Hok.
  destruct (analyzeDish_Selects now d) as (v & H & _).
  exists v. split; [assumption|].
  unfold ScanPage.handleScan. now rewrite H, Hok.
Qed.

Lemma handleScan_analyzeDish_never_fails_witness :
  exists v,
    analyzeDish clock0 "sushi" = Resolved v /\
    ScanPage.handleScan _ (analyzeDish clock0) (fun _ => View.Ok tt) "sushi"
    = [ ScanPage.SetIsAnalyzing true; ScanPage.OnResult v;
        ScanPage.SetIsAnalyzing false ].
Proof.
  apply (handleScan_analyzeDish_never_fails clock0 (fun _ => View.Ok tt) "sushi").
  reflexivity.
Defined.

Lemma normalizedName_blank (ws : string) :
  blank ws = true -> normalizedName ws = "".
Proof.
  intros H. unfold normalizedName, trim.
  now rewrite toLowerCase_blank, trimStart_blank.
Qed.

(** X18.  The manual entry never analyses the empty name: with the field
    left empty the click analyses "Burger" and delivers the Classic Burger
    report, while a field holding white space only is analysed as typed and
    delivers the default report named by that white space. *)
Theorem manual_entry_empty_or_blank :
  forall now (onResult : Property DishReport -> View.Exc unit),
    (forall v, onResult v = View.Ok tt) ->
    ScanPage.onManualClick _ (analyzeDish now) onResult ""
    = [ ScanPage.SetIsAnalyzing true; ScanPage.OnResult (Own (burger now));
        ScanPage.SetIsAnalyzing false ]
    /\ (forall ws,
           blank ws = true -> ws <> "" ->
           ScanPage.onManualClick _ (analyzeDish now) onResult ws
           = [ ScanPage.SetIsAnalyzing true;
               ScanPage.OnResult (Own (defaultReport now ws));
               ScanPage.SetIsAnalyzing false ]).
Proof.
  intros now onResult Hok. split.
  - unfold ScanPage.onManualClick, ScanPage.handleScan. simpl.
    now rewrite Hok.
  - intros ws Hb Hne.
    unfold ScanPage.onManualClick, ScanPage.manualName.
    destruct (String.eqb_spec ws "") as [E|_]; [contradiction|].
    unfold ScanPage.handleScan.
    rewrite analyzeDish_default, Hok; [reflexivity|].
    now rewrite normalizedName_blank.
Qed.

Lemma manual_entry_empty_or_blank_witness :
  ScanPage.onManualClick _ (analyzeDish clock0) (fun _ => View.Ok tt) ""
  = [ ScanPage.SetIsAnalyzing true; ScanPage.OnResult (Own (burger clock0));
      ScanPage.SetIsAnalyzing false ]
  /\ ScanPage.onManualClick _ (analyzeDish clock0) (fun _ => View.Ok tt) "  "
     = [ ScanPage.SetIsAnalyzing true;
         ScanPage.OnResult (Own (defaultReport clock0 "  "));
         ScanPage.SetIsAnalyzing false ].
Proof.
  split.
  - apply (proj1 (manual_entry_empty_or_blank clock0 (fun _ => View.Ok tt)
                    (fun _ => eq_refl))).
  - apply (proj2 (manual_entry_empty_or_blank clock0 (fun _ => View.Ok tt)
                    (fun _ => eq_refl)) "  ").
    + reflexivity.
    + discriminate.
Defined.

(* ===================================================================== *)
(** ** The dish card *)
(* ===================================================================== *)

Lemma countTag_tagChips (ts : list string) :
  list_sum (map (Query.countTag "button") (map DishCard.tagChip ts)) = 0.
Proof. induction ts as [|t ts IH]; simpl; [reflexivity | exact IH]. Qed.

Lemma texts_tagChips (ts : list string) :
  flat_map View.texts (map DishCard.tagChip ts) = ts.
Proof. induction ts as [|t ts IH]; simpl; [reflexivity | now rewrite IH]. Qed.

(** X19.  A dish card offers the 'Generate QR' button exactly when a
    handler is given and the dish is not out of stock, and has no other
    button; and it shows, in this order, the status when there is one, the
    title, the warning icon when [alert] is set, 'OUT OF STOCK' when [out]
    is set, the tag line, every tag once in the order given, and the label
    of the button when it is offered. *)
Theorem DishCard_button_and_texts :
  forall p,
    Query.countTag "button" (DishCard.render p)
    = (if DishCard.onGenerateQR p && negb (DishCard.truthy_bool (DishCard.out p))
       then 1 else 0)
    /\ View.texts (DishCard.render p)
       = ((if View.truthy_string (DishCard.status p)
           then [View.string_or_empty (DishCard.status p)] else [])
            ++ [DishCard.title p]
            ++ (if DishCard.truthy_bool (DishCard.alert p) then ["warning"] else [])
            ++ (if DishCard.truthy_bool (DishCard.out p) then ["OUT OF STOCK"] else [])
            ++ ["Fresh ingredients, daily prep."]
            ++ DishCard.tags p
            ++ (if DishCard.onGenerateQR p
                   && negb (DishCard.truthy_bool (DishCard.out p))
                then ["Generate QR"] else []))%list.
Proof.
  intros [title tags img status alert out gen]. unfold DishCard.render.
  cbn [DishCard.title DishCard.tags DishCard.img DishCard.status DishCard.alert
       DishCard.out DishCard.onGenerateQR].
  split.
  - destruct (View.truthy_string status), (DishCard.truthy_bool alert),
      (DishCard.truthy_bool out), gen;
      cbn -[DishCard.tagChip]; rewrite ?map_app; cbn -[DishCard.tagChip];
      rewrite ?countTag_tagChips; reflexivity.
  - destruct (View.truthy_string status), (DishCard.truthy_bool alert),
      (DishCard.truthy_bool out), gen;
      cbn -[DishCard.tagChip]; rewrite ?flat_map_app; cbn -[DishCard.tagChip];
      rewrite ?texts_tagChips, ?app_nil_r; reflexivity.
Qed.

(* ===================================================================== *)
(** ** The QR code dialog *)
(* ===================================================================== *)

Lemma slice0_prefix (n : nat) (s : string) :
  exists rest, s = QRCodeDisplay.slice0 n s ++ rest.
Proof.
  revert s. induction n as [|n IH]; intros s.
  - now exists s.
  - destruct s as [|c s]; [now exists ""|].
    destruct (IH s) as (rest & H). exists rest. simpl. now rewrite <- H.
Qed.

Lemma slice0_length (n : nat) (s : string) :
  String.length (QRCodeDisplay.slice0 n s) = Nat.min n (String.length s).
Proof.
  revert s. induction n as [|n IH]; intros s; [reflexivity|].
  destruct s as [|c s]; [reflexivity|]. simpl. now rewrite IH.
Qed.

(** X20.  The texts of the dialog: the close icon when [onClose] is given,
    the title, the placeholder 'QR Code Preview' when there is no image,
    the two buttons, and the token line, 'Token: ', the start of the token,
    '...'.  What is shown of the token is its first 16 characters, or the
    whole token when it has fewer; the dots follow in both cases. *)
Theorem QRCodeDisplay_token_preview :
  forall qrData onClose,
    exists shown rest,
      View.texts (QRCodeDisplay.render qrData onClose)
      = ((if onClose then ["close"] else [])
           ++ ["qr_code"; "QR Code Ready!"; "Scan to view allergen information"]
           ++ (if View.truthy_string (QRCodeDisplay.imageUrl qrData)
               then [] else ["qr_code_2"; "QR Code Preview"])
           ++ ["Download QR Code"; "link"; "Copy Scan URL"]
           ++ ["Token: "; shown; "..."])%list /\
      QRCodeDisplay.token qrData = shown ++ rest /\
      String.length shown
      = Nat.min 16 (String.length (QRCodeDisplay.token qrData)).
Proof.
  intros q c.
  destruct (slice0_prefix 16 (QRCodeDisplay.token q)) as (rest & Hrest).
  exists (QRCodeDisplay.slice0 16 (QRCodeDisplay.token q)), rest.
  split; [|split; [exact Hrest | apply slice0_length]].
  unfold QRCodeDisplay.render.
  destruct c, (View.truthy_string (QRCodeDisplay.imageUrl q)); reflexivity.
Qed.

(** X21.  The download button and the picture agree: when the dialog shows
    an image, 'Download QR Code' opens exactly the address of that image in
    a new tab; when it shows the placeholder 'QR Code Preview' instead (no
    image address, or an empty one), the button does nothing. *)
Theorem QRCodeDisplay_download_matches_image :
  forall qrData onClose,
    match Query.attrOfTag "img" "src" (QRCodeDisplay.render qrData onClose) with
    | Some u =>
        QRCodeDisplay.imageUrl qrData = Some u /\
        QRCodeDisplay.handleDownload qrData
        = [QRCodeDisplay.WindowOpen u "_blank"]
    | None =>
        QRCodeDisplay.handleDownload qrData = [] /\
        In "QR Code Preview" (View.texts (QRCodeDisplay.render qrData onClose))
    end.
Proof.
  intros [tok id img url] c.
  unfold QRCodeDisplay.handleDownload, QRCodeDisplay.render.
  cbn [QRCodeDisplay.imageUrl QRCodeDisplay.token].
  destruct img as [u|]; [destruct (String.eqb u "") eqn:E|];
    cbn [View.truthy_string View.string_or_empty negb]; rewrite ?E;
    destruct c; cbn -[QRCodeDisplay.slice0]; auto 10.
Qed.

(* ===================================================================== *)
(** ** The API client *)
(* ===================================================================== *)

(** X22.  Every call of the API client tests the status before it reads
    the body: when the server answers with a status that is not [ok], the
    call is rejected with the message of that call, whatever the body of
    the response is. *)
Theorem api_rejects_failed_status :
  forall (J : Type) (fetch : Api.Request -> Api.Response J),
    (forall req, exists body, fetch req = Api.Http false body) ->
    (forall data,
        Api.registerRestaurant J fetch data = Rejected "Registration failed")
    /\ (forall k data, Api.addDish J fetch k data = Rejected "Failed to add dish")
    /\ (forall k, Api.getDishes J fetch k = Rejected "Failed to fetch dishes")
    /\ (forall k id,
           Api.generateQR J fetch k id = Rejected "Failed to generate QR code")
    /\ (forall token, Api.scanQR J fetch token = Rejected "Invalid QR code")
    /\ (forall k, Api.getAnalytics J fetch k = Rejected "Failed to fetch analytics").
Proof.
  intros J fetch H.
  repeat match goal with |- _ /\ _ => split end; intros;
    unfold Api.registerRestaurant, Api.addDish, Api.getDishes, Api.generateQR,
      Api.scanQR, Api.getAnalytics;
    match goal with
    | |- context [fetch ?req] => destruct (H req) as (body & ->)
    end; reflexivity.
Qed.

Lemma api_rejects_failed_status_witness :
  Api.scanQR nat (fun _ => Api.Http false (Some 5)) "abc"
  = Rejected "Invalid QR code".
Proof.
  apply (api_rejects_failed_status nat (fun _ => Api.Http false (Some 5))).
  intros req. now exists (Some 5).
Defined.

(** X23.  The API key travels in the [X-API-Key] header and nowhere else
    is it needed: [addDish], [getDishes], [generateQR] and [getAnalytics]
    only make requests that carry the key in that header, and
    [registerRestaurant] and [scanQR] only make requests without such a
    header.  Two networks that agree on those requests give the same
    outcome. *)
Theorem api_key_header :
  forall (J : Type) (fetch1 fetch2 : Api.Request -> Api.Response J),
    (forall k,
        (forall req,
            JS.own (Api.headers req) "X-API-Key" = Some k ->
            fetch1 req = fetch2 req) ->
        (forall data, Api.addDish J fetch1 k data = Api.addDish J fetch2 k data)
        /\ Api.getDishes J fetch1 k = Api.getDishes J fetch2 k
        /\ (forall id, Api.generateQR J fetch1 k id = Api.generateQR J fetch2 k id)
        /\ Api.getAnalytics J fetch1 k = Api.getAnalytics J fetch2 k)
    /\ ((forall req,
            JS.own (Api.headers req) "X-API-Key" = None ->
            fetch1 req = fetch2 req) ->
        (forall data,
            Api.registerRestaurant J fetch1 data
            = Api.registerRestaurant J fetch2 data)
        /\ (forall token, Api.scanQR J fetch1 token = Api.scanQR J fetch2 token)).
Proof.
  intros J fetch1 fetch2. split.
  - intros k H.
    repeat match goal with |- _ /\ _ => split end; intros;
      unfold Api.addDish, Api.getDishes, Api.generateQR, Api.getAnalytics;
      rewrite H; reflexivity.
  - intros H. split; intros;
      unfold Api.registerRestaurant, Api.scanQR; rewrite H; reflexivity.
Qed.

(** The network of [analyzeDishFromBackend] seen as the network of the API
    client: the answer to a request is the answer to its address. *)
Lemma scanQR_same_url (token : string) :
  scanUrl token = Api.API_BASE ++ "/scan/" ++ token.
Proof. reflexivity. Qed.

(** X24.  [analyzeDishFromBackend] is [scanQR] followed by the transform:
    on the same network both request the same address.  When [scanQR]
    settles to a body of the expected shape, [analyzeDishFromBackend]
    settles to the report built from that body; when [scanQR] settles to a
    body on which the transform throws, which [scanQR] does not look at,
    [analyzeDishFromBackend] is rejected with that [TypeError]; and when
    [scanQR] is rejected so is [analyzeDishFromBackend], with the same
    error, or with 'Failed to fetch dish information' for 'Invalid QR code'
    when the status is not [ok]. *)
Theorem analyzeDishFromBackend_is_scanQR_then_transform :
  forall now (fetch : string -> Scan.response) token,
    match Api.scanQR Scan.json
            (fun req =>
               match fetch (Api.url req) with
               | Scan.NetworkError err => Api.NetworkError err
               | Scan.Response ok body =>
                   Api.Http ok (option_map Scan.Shaped body)
               | Scan.Malformed ok typeError =>
                   Api.Http ok (Some (Scan.Unshaped typeError))
               end) token with
    | Resolved (Scan.Shaped d) =>
        analyzeDishFromBackend now fetch token = Resolved (toDishReport now d)
    | Resolved (Scan.Unshaped typeError) =>
        analyzeDishFromBackend now fetch token = Rejected typeError
    | Rejected e =>
        exists e', analyzeDishFromBackend now fetch token = Rejected e' /\
                   (e = e' \/
                    (e = "Invalid QR code" /\
                     e' = "Failed to fetch dish information"))
    end.
Proof.
  intros now fetch token.
  unfold Api.scanQR, analyzeDishFromBackend. cbn [Api.url].
  rewrite <- scanQR_same_url.
  destruct (fetch (scanUrl token)) as [err | [|] [d|] | [|] te]; cbn;
    try reflexivity; eexists; (split; [reflexivity|]); auto.
Qed.

(* ===================================================================== *)
(** ** The allergen badge *)
(* ===================================================================== *)

Lemma string_app_inv_head (p x y : string) : p ++ x = p ++ y -> x = y.
Proof.
  induction p as [|c p IH]; simpl; [trivial|].
  intros H. injection H as H. auto.
Qed.

Lemma getSeverityColor_inj (s1 s2 : AllergenSeverity) :
  AllergenBadge.getSeverityColor s1 = AllergenBadge.getSeverityColor s2 ->
  s1 = s2.
Proof. destruct s1, s2; simpl; intros H; (reflexivity || discriminate H). Qed.

(** X25.  A badge shows the icon of the allergen's name and then the name,
    and two badges of the same size that look the same are badges of the
    same name and the same severity: the three severities are never drawn
    alike. *)
Theorem AllergenBadge_shows_name_and_severity :
  forall a1 a2 size,
    View.texts (AllergenBadge.render a1 size)
    = [AllergenBadge.getIcon (name a1); name a1]
    /\ (AllergenBadge.render a1 size = AllergenBadge.render a2 size ->
        name a1 = name a2 /\ severity a1 = severity a2).
Proof.
  intros a1 a2 size. split; [reflexivity|].
  unfold AllergenBadge.render, View.el. intros H.
  injection H as Hclass _ Hname. split; [assumption|].
  apply string_app_inv_head in Hclass.
  injection Hclass as Hclass.
  now apply getSeverityColor_inj.
Qed.
